(** * zeppelin_pyspark.py: the PySpark bridge of Zeppelin

    A shallow embedding of [spark/src/main/resources/python/zeppelin_pyspark.py]:
    the statement filter and the dual-mode executor of the main loop, its two
    exception handlers, the completion engine [PySparkCompletion] and the
    dictionary-like proxy [PyZeppelinContext].

    Conventions.
    - A Python string is a [string] whose characters are the code points
      below 256.
    - The module's global dictionary is a [gmap string value].  The main loop
      runs at module level and [exec(code)] is called without a dictionary,
      so the loop's own variables ([req], [stmts], [s], [code], ...) and the
      names bound by the executed statements live in this one dictionary.
    - The names of imported modules, builtins and of the objects created at
      start-up ([intp], [sc], [ast], [traceback], [compile], ...) denote
      their definitions, as in any shallow embedding.
    - What belongs to the Python runtime and not to this file (the parser
      behind [compile], the stack text of a traceback, [repr] of objects,
      [dir]) is gathered in the record [Runtime].
    - The interpreter is one that accepts [ast.Module([node])], as the file
      expects (Python 2.7 to 3.7). *)

From Stdlib Require Import ZArith Ascii String List Lia.
From stdpp Require Import base strings list gmap pretty.

Local Open Scope string_scope.
Local Open Scope Z_scope.

(** ** Strings *)

Module PyStr.

Definition nl : ascii := "010"%char.

Definition nl_s : string := String nl "".

(** [str.isspace] on the code points below 256. *)
Definition isspace (c : ascii) : bool :=
  let n := N_of_ascii c in
  ((9 <=? n) && (n <=? 13) || (28 <=? n) && (n <=? 32)
   || (n =? 133) || (n =? 160))%N.

Fixpoint lstrip (s : string) : string :=
  match s with
  | String c s' => if isspace c then lstrip s' else s
  | EmptyString => EmptyString
  end.

Fixpoint rstrip (s : string) : string :=
  match s with
  | EmptyString => EmptyString
  | String c s' =>
      match rstrip s' with
      | EmptyString => if isspace c then EmptyString else String c EmptyString
      | r => String c r
      end
  end.

(** [s.strip()] *)
Definition strip (s : string) : string := rstrip (lstrip s).

(** [s.startswith(p)] *)
Fixpoint startswith (s p : string) {struct p} : bool :=
  match p with
  | EmptyString => true
  | String a p' =>
      match s with
      | EmptyString => false
      | String b s' => Ascii.eqb a b && startswith s' p'
      end
  end.

(** [s.split("\n")]: never empty, [""] splits into [[""]]. *)
Fixpoint split_nl (s : string) : list string :=
  match s with
  | EmptyString => [EmptyString]
  | String c s' =>
      match split_nl s' with
      | l :: ls => if Ascii.eqb c nl then EmptyString :: l :: ls
                   else String c l :: ls
      | [] => []
      end
  end.

(** ['\n'.join(l)] *)
Fixpoint join_nl (l : list string) : string :=
  match l with
  | [] => EmptyString
  | [x] => x
  | x :: rest => x +:+ nl_s +:+ join_nl rest
  end.

(** [s.find(sub)], with [None] for Python's [-1]. *)
Definition find (s sub : string) : option nat := String.index 0 sub s.

(** [s[i:]] *)
Definition slice_from (i : nat) (s : string) : string :=
  String.substring i (String.length s - i)%nat s.

(** the characters of [s] that are no line break *)
Fixpoint no_nl (s : string) : bool :=
  match s with
  | EmptyString => true
  | String c s' => negb (Ascii.eqb c nl) && no_nl s'
  end.

Fixpoint all_space (s : string) : bool :=
  match s with
  | EmptyString => true
  | String c s' => isspace c && all_space s'
  end.

Definition first_char (s : string) : option ascii :=
  match s with
  | EmptyString => None
  | String c _ => Some c
  end.

Fixpoint last_char (s : string) : option ascii :=
  match s with
  | EmptyString => None
  | String c EmptyString => Some c
  | String _ s' => last_char s'
  end.

Definition is_space_opt (c : option ascii) : bool :=
  match c with
  | Some c => isspace c
  | None => false
  end.

End PyStr.

Import PyStr.

(** ** The fragment of Python the batches are written in

    [compile] turns the cleaned text into [ast] nodes; the nodes of this
    fragment are assignments and expression statements. *)

Inductive expr : Type :=
  | ENum (n : Z)
  | EStr (s : string)
  | ENone
  | EName (x : string)
  | EAdd (a b : expr)
  | EFloorDiv (a b : expr)
  | EDir (a : expr)                   (* dir(a) *)
  | EJavaCall (fault : option string) (* a call through the py4j gateway:
                                         returns None, or the host raises *).

Inductive stmt : Type :=
  | Assign (x : string) (e : expr)   (* x = e *)
  | Expr (e : expr).                 (* e *)

(** [compile(..., 'exec')] and [compile(..., 'single')] *)
Inductive mode : Type := ExecMode | SingleMode.

(** The name a node binds. *)
Definition assigned (u : stmt) : option string :=
  match u with
  | Assign x _ => Some x
  | Expr _ => None
  end.

(** A request as [intp.getStatements()] returns it. *)
Record request : Type := Request {
  statements : string;
  jobGroup : string
}.

Inductive value : Type :=
  | VNone
  | VInt (n : Z)
  | VStr (s : string)
  | VStrList (l : list string)        (* a list of str *)
  | VNode (u : stmt)                  (* one ast node *)
  | VNodes (l : list stmt)            (* a list of ast nodes *)
  | VTree (body : list stmt)          (* the ast.Module of a whole batch *)
  | VAst (m : mode) (node : value)    (* ast.Module([node]), ast.Interactive([node]) *)
  | VCode (m : mode) (u : stmt)       (* a code object *)
  | VReq (r : request)
  | VObj (id : string).               (* any other object, by identity *)

Inductive exn : Type :=
  | SyntaxError (msg : string)
  | NameError (x : string)
  | TypeError
  | ZeroDivisionError
  | KeyError (key : string)
  | Py4JJavaError (msg : string)
  | Exception (text : string).

Definition is_Py4JJavaError (e : exn) : bool :=
  match e with Py4JJavaError _ => true | _ => false end.

Inductive res (A : Type) : Type :=
  | Ok (a : A)
  | Raise (e : exn).
Arguments Ok {A} a.
Arguments Raise {A} e.

Definition res_bind {A B} (r : res A) (k : A -> res B) : res B :=
  match r with Ok a => k a | Raise e => Raise e end.

Notation "'let!' x ':=' r 'in' k" := (res_bind r (fun x => k))
  (at level 10, x name, r at level 100, k at level 200).

(** What the Python runtime supplies. *)
Record Runtime : Type := {
  (* compile(text, '<stdin>', 'exec', ast.PyCF_ONLY_AST, 1).body *)
  compile_ast : string -> res (list stmt);
  (* what a traceback prints between its first line and the class name of
     the exception *)
  stack : exn -> string;
  (* str(e) of the builtin exceptions *)
  message : exn -> string;
  (* str(sys.exc_info()) *)
  exc_info : exn -> string;
  (* repr(v) of the values that are no int *)
  repr_obj : value -> string;
  (* dir(v) *)
  attrs : value -> list string;
  (* the items of an object of the runtime when it is iterable *)
  obj_items : string -> option (list value);
  (* json.dumps(s) of one str *)
  json_str : string -> string
}.

(** ** Evaluating the fragment *)

Section Semantics.

Context (rt : Runtime).

(** [repr(v)]: decimal digits for an int. *)
Definition repr (v : value) : string :=
  match v with
  | VInt n => pretty n
  | _ => repr_obj rt v
  end.

(** A name is read from the local dictionary, then from the global one. *)
Definition lookup_name (g l : gmap string value) (x : string) : res value :=
  match l !! x with
  | Some v => Ok v
  | None => match g !! x with
            | Some v => Ok v
            | None => Raise (NameError x)
            end
  end.

Definition add_values (a b : value) : res value :=
  match a, b with
  | VInt m, VInt n => Ok (VInt (m + n))
  | VStr s, VStr t => Ok (VStr (s +:+ t))
  | VStrList s, VStrList t => Ok (VStrList (s ++ t)%list)
  | VNodes s, VNodes t => Ok (VNodes (s ++ t)%list)
  | _, _ => Raise TypeError
  end.

Definition floordiv_values (a b : value) : res value :=
  match a, b with
  | VInt m, VInt n => if n =? 0 then Raise ZeroDivisionError else Ok (VInt (m / n))
  | _, _ => Raise TypeError
  end.

Fixpoint eval (g l : gmap string value) (e : expr) : res value :=
  match e with
  | ENum n => Ok (VInt n)
  | EStr s => Ok (VStr s)
  | ENone => Ok VNone
  | EName x => lookup_name g l x
  | EAdd a b =>
      let! va := eval g l a in
      let! vb := eval g l b in
      add_values va vb
  | EFloorDiv a b =>
      let! va := eval g l a in
      let! vb := eval g l b in
      floordiv_values va vb
  | EDir a =>
      let! va := eval g l a in
      Ok (VStrList (attrs rt va))
  | EJavaCall None => Ok VNone
  | EJavaCall (Some m) => Raise (Py4JJavaError m)
  end.

(** [sys.displayhook]: nothing for [None], else [repr] and a line break,
    each written to [sys.stdout]. *)
Definition displayhook (v : value) : list string :=
  match v with
  | VNone => []
  | _ => [repr v; nl_s]
  end.

(** [exec(code, g, l)] for the code of one node: the local dictionary after
    it and what it wrote to [sys.stdout]. *)
Definition exec_node (m : mode) (g l : gmap string value) (u : stmt)
  : res (gmap string value * list string) :=
  match u with
  | Assign x e =>
      let! v := eval g l e in
      Ok (<[x := v]> l, [])
  | Expr e =>
      let! v := eval g l e in
      Ok (l, match m with ExecMode => [] | SingleMode => displayhook v end)
  end.

(** [exec(code, g, l)] for a module: node after node on the same pair of
    dictionaries. *)
Fixpoint exec_module (g l : gmap string value) (body : list stmt)
  : res (gmap string value) :=
  match body with
  | [] => Ok l
  | u :: rest =>
      let! r := exec_node ExecMode g l u in
      exec_module g r.1 rest
  end.

(** [traceback.format_exc()] *)
Definition exn_name (e : exn) : string :=
  match e with
  | SyntaxError _ => "SyntaxError"
  | NameError _ => "NameError"
  | TypeError => "TypeError"
  | ZeroDivisionError => "ZeroDivisionError"
  | KeyError _ => "KeyError"
  | Py4JJavaError _ => "Py4JJavaError"
  | Exception _ => "Exception"
  end.

Definition exn_str (e : exn) : string :=
  match e with
  | Py4JJavaError m => m
  | Exception t => t
  | _ => message rt e
  end.

Definition traceback_head : string := "Traceback (most recent call last):".

Definition format_exc (e : exn) : string :=
  traceback_head +:+ nl_s +:+ stack rt e
    +:+ exn_name e +:+ ": " +:+ exn_str e +:+ nl_s.

End Semantics.

(** ** The main loop *)

(** What the host sees of one session. *)
Inductive host_event : Type :=
  | AppendOutput (chunk : string)              (* intp.appendOutput, through Logger.write *)
  | SetJobGroup (group description : string)   (* sc.setJobGroup *)
  | SetStatementsFinished (text : string) (is_error : bool).

(** The module's global dictionary, the calls made on the host so far, and
    a record of the nodes handed to [exec] so far, with the mode each was
    compiled in (kept to state in which order nodes are run). *)
Record state : Type := State {
  globals : gmap string value;
  host : list host_event;
  ran : list (mode * stmt)
}.

Definition store (x : string) (v : value) (st : state) : state :=
  State (<[x := v]> (globals st)) (host st) (ran st).

Definition emit (evs : list host_event) (st : state) : state :=
  State (globals st) (host st ++ evs)%list (ran st).

Definition note_ran (m : mode) (u : stmt) (st : state) : state :=
  State (globals st) (host st) (ran st ++ [(m, u)])%list.

(** [Logger.write] *)
Definition Logger_write (message : string) : host_event := AppendOutput message.

(** Lines 277-278: the test that skips a line. *)
Definition skipped (s : string) : bool :=
  let s_stripped := strip s in
  (String.length s_stripped =? 0)%nat || startswith s_stripped "#".

(** Lines 272-281; [final_code.append(s)] changes the list that the global
    [final_code] is bound to.  A line of [split] is a string, so the test
    [s == None] of line 273 never holds. *)
Fixpoint filter_loop (stmts : list string) (final_code : list string)
    (st : state) : state * list string :=
  match stmts with
  | [] => (st, final_code)
  | s :: rest =>
      let st := store "s" (VStr s) st in
      let st := store "s_stripped" (VStr (strip s)) st in
      if skipped s then filter_loop rest final_code st
      else
        let final_code := (final_code ++ [s])%list in
        filter_loop rest final_code (store "final_code" (VStrList final_code) st)
  end.

(** The names the loop itself binds in the module's globals: by every
    turn, by a turn that runs code, by the handler of line 304. *)
Definition read_vars : list string :=
  ["req"; "stmts"; "jobGroup"; "final_code"; "s"; "s_stripped"].

Definition unit_vars : list string := ["node"; "mod"; "code"].

Definition loop_vars : list string :=
  (read_vars ++ ["to_run_exec"; "to_run_single"] ++ unit_vars
     ++ ["excInnerError"; "innerErrorStart"])%list.

(** [st'] follows [st]: more nodes were run, and the globals differ at most
    at the loop's own names and at the names those nodes assign. *)
Definition follows (st st' : state) : Prop :=
  exists new,
    ran st' = (ran st ++ new)%list
    /\ forall x, x ∉ loop_vars -> (forall m e, (m, Assign x e) ∉ new) ->
                 globals st' !! x = globals st !! x.

Section MainLoop.

Context (rt : Runtime).

(** What a [for] statement iterates over. *)
Definition items_of (v : value) : res (list value) :=
  match v with
  | VNodes l => Ok (VNode <$> l)
  | VStrList l => Ok (VStr <$> l)
  | VStr s => Ok ((fun c => VStr (String c EmptyString)) <$> list_ascii_of_string s)
  | VObj id => match obj_items rt id with
               | Some l => Ok l
               | None => Raise TypeError
               end
  | _ => Raise TypeError
  end.

(** Lines 292 and 297: [mod = ast.Module([node])], [mod = ast.Interactive([node])]. *)
Definition wrap_node (m : mode) (node : value) (st : state) : state :=
  store "mod" (VAst m node) (store "node" node st).

(** Lines 293 and 298: [code = compile(mod, '<stdin>', ...)], about to be run. *)
Definition load_code (m : mode) (u : stmt) (st : state) : state :=
  note_ran m u (store "code" (VCode m u) st).

(** The body of both loops, lines 292-294 and 297-299: wrap the node,
    compile it in mode [m] ([compile] rejects what is no statement), run
    the code on the module's globals. *)
Definition run_node (m : mode) (node : value) (st : state) : state * option exn :=
  let st := wrap_node m node st in
  match node with
  | VNode u =>
      let st := load_code m u st in
      match exec_node rt m (globals st) (globals st) u with
      | Ok (g, out) => (emit (Logger_write <$> out) (State g (host st) (ran st)), None)
      | Raise e => (st, Some e)
      end
  | _ => (st, Some TypeError)
  end.

Fixpoint run_nodes (m : mode) (nodes : list value) (st : state) : state * option exn :=
  match nodes with
  | [] => (st, None)
  | node :: rest =>
      match run_node m node st with
      | (st', None) => run_nodes m rest st'
      | failed => failed
      end
  end.

(** [for node in <name>: ...], the name read from the globals. *)
Definition for_node_in (name : string) (m : mode) (st : state) : state * option exn :=
  match lookup_name (globals st) (globals st) name with
  | Raise e => (st, Some e)
  | Ok v => match items_of v with
            | Raise e => (st, Some e)
            | Ok nodes => run_nodes m nodes st
            end
  end.

(** Lines 290-301. *)
Definition inner_try (st : state) : state * option exn :=
  match for_node_in "to_run_exec" ExecMode st with
  | (st, Some e) => (st, Some (Exception (format_exc rt e)))
  | (st, None) =>
      match for_node_in "to_run_single" SingleMode st with
      | (st, Some e) => (st, Some (Exception (format_exc rt e)))
      | (st, None) => (st, None)
      end
  end.

(** Lines 287-288: the batch is parsed once, then cut into all nodes but
    the last and the last. *)
Definition bind_units (body : list stmt) (st : state) : state :=
  let st := store "code" (VTree body) st in
  let st := store "to_run_exec" (VNodes (take (length body - 1)%nat body)) st in
  store "to_run_single" (VNodes (drop (length body - 1)%nat body)) st.

(** Lines 283-303; [rejected] is the host's answer to [sc.setJobGroup]. *)
Definition run_code (rejected : option string) (req : request)
    (final_code : list string) (st : state) : state * option exn :=
  match final_code with
  | [] => (emit [SetStatementsFinished "" false] st, None)
  | _ :: _ =>
      let st := emit [SetJobGroup (jobGroup req) "Zeppelin"] st in
      match rejected with
      | Some m => (st, Some (Py4JJavaError m))
      | None =>
          match compile_ast rt (join_nl final_code) with
          | Raise e => (st, Some e)
          | Ok body =>
              match inner_try (bind_units body st) with
              | (st, Some e) => (st, Some e)
              | (st, None) => (emit [SetStatementsFinished "" false] st, None)
              end
          end
      end
  end.

(** Lines 268-281. *)
Definition read_request (req : request) (st : state) : state * list string :=
  let stmts := split_nl (statements req) in
  let st := store "stmts" (VStrList stmts) st in
  let st := store "jobGroup" (VStr (jobGroup req)) st in
  let st := store "final_code" (VStrList []) st in
  filter_loop stmts [] st.

(** The state in which line 290 is reached when the lines kept parse into
    [body]. *)
Definition prepare (req : request) (body : list stmt) (st : state) : state :=
  bind_units body
    (emit [SetJobGroup (jobGroup req) "Zeppelin"]
       (read_request req (store "req" (VReq req) st)).1).

(** Lines 268-303. *)
Definition try_body (rejected : option string) (req : request) (st : state)
  : state * option exn :=
  let '(st, final_code) := read_request req st in
  run_code rejected req final_code st.

Definition marker : string := "Py4JJavaError:".

(** Lines 304-309. *)
Definition on_Py4JJavaError (e : exn) (st : state) : state :=
  let excInnerError := format_exc rt e in
  let st := store "excInnerError" (VStr excInnerError) st in
  let innerErrorStart := find excInnerError marker in
  match innerErrorStart with
  | Some i =>
      let st := store "innerErrorStart" (VInt (Z.of_nat i)) st in
      let excInnerError := slice_from i excInnerError in
      let st := store "excInnerError" (VStr excInnerError) st in
      emit [SetStatementsFinished (excInnerError +:+ exc_info rt e) true] st
  | None =>
      let st := store "innerErrorStart" (VInt (-1)) st in
      emit [SetStatementsFinished (excInnerError +:+ exc_info rt e) true] st
  end.

(** Lines 310-311. *)
Definition on_other (e : exn) (st : state) : state :=
  emit [SetStatementsFinished (format_exc rt e) true] st.

(** One turn of [while True], lines 266-313; [output.reset()] of line 313
    does nothing. *)
Definition iteration (rejected : option string) (req : request) (st : state) : state :=
  let st := store "req" (VReq req) st in
  match try_body rejected req st with
  | (st, None) => st
  | (st, Some e) =>
      if is_Py4JJavaError e then on_Py4JJavaError e st else on_other e st
  end.

(** The loop over the requests the host delivers. *)
Fixpoint main_loop (reqs : list (option string * request)) (st : state) : state :=
  match reqs with
  | [] => st
  | (rejected, req) :: rest => main_loop rest (iteration rejected req st)
  end.

End MainLoop.

(** ** PySparkCompletion *)

Module PySparkCompletion.

(** [text_value[-1] == "."] *)
Fixpoint ends_with_dot (s : string) : bool :=
  match s with
  | EmptyString => false
  | String c EmptyString => Ascii.eqb c "."
  | String _ s' => ends_with_dot s'
  end.

(** [text_value[:-1]] *)
Fixpoint drop_last (s : string) : string :=
  match s with
  | EmptyString => EmptyString
  | String _ EmptyString => EmptyString
  | String c s' => String c (drop_last s')
  end.

(** [re.match("^__.*", x)]: the pattern matches a prefix of [x], and [.*]
    matches the empty string. *)
Definition re_match_dunder (x : string) : bool := startswith x "__".

Section Completion.

Context (rt : Runtime).

(** [json.dumps] of a list of str *)
Fixpoint json_items (l : list string) : string :=
  match l with
  | [] => EmptyString
  | [x] => json_str rt x
  | x :: rest => json_str rt x +:+ ", " +:+ json_items rest
  end.

Definition json_dumps (l : list string) : string := "[" +:+ json_items l +:+ "]".

(** Lines 165-173: the keys of the module's globals. *)
Definition getGlobalCompletion (g : gmap string value) : option (list string) :=
  Some (map_to_list g).*1.

(** Line 185: the statement that is executed. *)
Definition completion_source (completion_target : string) : string :=
  "objectDefList = dir(" +:+ completion_target +:+ ")".

(** [locals()] on entry of [getMethodCompletion] *)
Definition method_locals (text_value : string) : gmap string value :=
  <["self" := VObj "completion"]> (<["text_value" := VStr text_value]> ∅).

Definition completion_target (text_value : string) : string :=
  if ends_with_dot text_value then drop_last text_value else text_value.

(** Lines 180-185, what the [try] covers: [None] when anything raised. *)
Definition resolve (text_value : string) (g : gmap string value)
  : option (gmap string value) :=
  if (String.length text_value <=? 0)%nat then None
  else
    match compile_ast rt (completion_source (completion_target text_value)) with
    | Raise _ => None
    | Ok body =>
        match exec_module rt g (method_locals text_value) body with
        | Raise _ => None
        | Ok execResult => Some execResult
        end
    end.

(** [list(v)] for the values that hold names *)
Definition list_of (v : value) : res (list string) :=
  match v with
  | VStrList l => Ok l
  | VStr s => Ok ((fun c => String c EmptyString) <$> list_ascii_of_string s)
  | _ => Raise TypeError
  end.

(** Lines 175-189; the [else] branch is outside the [try]. *)
Definition getMethodCompletion (text_value : option string) (g : gmap string value)
  : res (option (list string)) :=
  match text_value with
  | None => Ok None
  | Some text_value =>
      match resolve text_value g with
      | None => Ok None
      | Some execResult =>
          match execResult !! "objectDefList" with
          | None => Raise (KeyError "objectDefList")
          | Some v => let! l := list_of v in Ok (Some l)
          end
      end
  end.

(** The set that lines 193-204 build. *)
Definition candidates (text_value : option string) (g : gmap string value)
  : res (gset string) :=
  let completionList : gset string := ∅ in
  let completionList :=
    match getGlobalCompletion g with
    | Some globalCompletionList => completionList ∪ list_to_set globalCompletionList
    | None => completionList
    end in
  match text_value with
  | None => Ok completionList
  | Some _ =>
      let! objectCompletionList := getMethodCompletion text_value g in
      match objectCompletionList with
      | Some l => Ok (completionList ∪ list_to_set l)
      | None => Ok completionList
      end
  end.

(** Line 208: the names that are serialised. *)
Definition offered (completionList : gset string) : list string :=
  filter (fun x => negb (re_match_dunder x) = true) (elements completionList).

(** Lines 192-209: the call made on the interpreter object, or the
    exception that leaves the method. *)
Definition getCompletion (text_value : option string) (g : gmap string value)
  : res host_event :=
  let! completionList := candidates text_value g in
  if (size completionList <=? 0)%nat then Ok (SetStatementsFinished "" false)
  else Ok (SetStatementsFinished (json_dumps (offered completionList)) false).

End Completion.

End PySparkCompletion.

(** ** PyZeppelinContext *)

Module PyZeppelinContext.

(** The calls made on the host's ZeppelinContext. *)
Inductive zcall : Type :=
  | Zput (key : string) (item : value)
  | Zget (key : string)
  | Zremove (key : string)
  | ZcontainsKey (key : string).

(** The object: the host's context [z] as the calls made on it, the entries
    of the [dict] it derives from, and [max_result]. *)
Record t : Type := Make {
  z : list zcall;
  entries : gmap string value;
  max_result : Z
}.

(** [__init__] *)
Definition init : t := Make [] ∅ 1000.

Section Proxy.

(** What the host answers, given the calls it has seen. *)
Context (host_get : list zcall -> string -> value).
Context (host_containsKey : list zcall -> string -> bool).

Definition call (c : zcall) (self : t) : t :=
  Make (z self ++ [c])%list (entries self) (max_result self).

Definition __setitem__ (self : t) (key : string) (item : value) : t :=
  call (Zput key item) self.

Definition __getitem__ (self : t) (key : string) : t * value :=
  (call (Zget key) self, host_get (z self) key).

Definition __delitem__ (self : t) (key : string) : t :=
  call (Zremove key) self.

Definition __contains__ (self : t) (item : string) : t * bool :=
  (call (ZcontainsKey item) self, host_containsKey (z self) item).

Definition add (self : t) (key : string) (value : value) : t :=
  __setitem__ self key value.

Definition put (self : t) (key : string) (value : value) : t :=
  __setitem__ self key value.

Definition get (self : t) (key : string) : t * value :=
  __getitem__ self key.

End Proxy.

End PyZeppelinContext.

(** ** A small runtime to run the definitions on

    [Demo.sources] lists the texts used below with the nodes Python parses
    them into; every other text is rejected.  The remaining fields are fixed
    texts. *)

Module Demo.

Definition quote : string := String "034" EmptyString.

Definition sources : list (string * list stmt) :=
  [ ("2 + 2", [Expr (EAdd (ENum 2) (ENum 2))]);
    ("x = 5", [Assign "x" (ENum 5)]);
    ("x = 1", [Assign "x" (ENum 1)]);
    ("x", [Expr (EName "x")]);
    ("s = 1", [Assign "s" (ENum 1)]);
    ("s", [Expr (EName "s")]);
    ("y = 7" +:+ nl_s +:+ "2 + 2",
      [Assign "y" (ENum 7); Expr (EAdd (ENum 2) (ENum 2))]);
    ("1 // 0" +:+ nl_s +:+ "2 + 2",
      [Expr (EFloorDiv (ENum 1) (ENum 0)); Expr (EAdd (ENum 2) (ENum 2))]);
    ("to_run_single = to_run_exec" +:+ nl_s +:+ "2 + 2",
      [Assign "to_run_single" (EName "to_run_exec"); Expr (EAdd (ENum 2) (ENum 2))]);
    ("y = 7" +:+ nl_s +:+ "1 // 0" +:+ nl_s +:+ "y = 8",
      [Assign "y" (ENum 7); Expr (EFloorDiv (ENum 1) (ENum 0)); Assign "y" (ENum 8)]);
    ("code = 1" +:+ nl_s +:+ "1 // 0" +:+ nl_s +:+ "3",
      [Assign "code" (ENum 1); Expr (EFloorDiv (ENum 1) (ENum 0)); Expr (ENum 3)]);
    ("sc.emptyRDD().first()", [Expr (EJavaCall (Some "An error occurred while calling o42.first."))]);
    ("objectDefList = dir(undefined_name)",
      [Assign "objectDefList" (EDir (EName "undefined_name"))]);
    ("objectDefList = dir(obj)",
      [Assign "objectDefList" (EDir (EName "obj"))]) ].

Fixpoint parse (table : list (string * list stmt)) (text : string) : res (list stmt) :=
  match table with
  | [] => Raise (SyntaxError "invalid syntax")
  | (src, body) :: rest => if String.eqb src text then Ok body else parse rest text
  end.

Definition rt : Runtime := {|
  compile_ast := parse sources;
  stack := fun _ => "  File <stdin>, line 1, in <module>" +:+ nl_s;
  message := fun e =>
    match e with
    | NameError x => "name '" +:+ x +:+ "' is not defined"
    | ZeroDivisionError => "integer division or modulo by zero"
    | SyntaxError m => m
    | _ => "unsupported operand"
    end;
  exc_info := fun e => "(<class '" +:+ exn_name e +:+ "'>, ...)";
  repr_obj := fun v => match v with VStr s => "'" +:+ s +:+ "'" | _ => "<object>" end;
  attrs := fun v => match v with VObj "obj" => ["__init__"; "method1"] | _ => ["__class__"] end;
  obj_items := fun _ => None;
  json_str := fun s => quote +:+ s +:+ quote
|}.

Definition st0 : state := State ∅ [] [].

End Demo.

(** ** More of the file: what a turn tells the host *)

Definition is_report (ev : host_event) : bool :=
  match ev with
  | SetStatementsFinished _ _ => true
  | _ => false
  end.

(** The lines of a text that line 278 lets through. *)
Definition kept_lines (text : string) : list string :=
  filter (fun s => skipped s = false) (split_nl text).

(** ** SparkVersion and the start of the script *)

Module SparkVersion.

Definition SPARK_1_4_0 : Z := 10400.
Definition SPARK_1_3_0 : Z := 10300.
Definition SPARK_2_0_0 : Z := 20000.

Record t : Type := Make { version : Z }.

Definition isAutoConvertEnabled (self : t) : bool := SPARK_1_4_0 <=? version self.

Definition isImportAllPackageUnderSparkSql (self : t) : bool :=
  SPARK_1_3_0 <=? version self.

Definition isSpark2 (self : t) : bool := SPARK_2_0_0 <=? version self.

(** Lines 219-222: the class imported from [pyspark.sql]. *)
Definition session_import (sparkVersion : t) : string :=
  if isSpark2 sparkVersion then "SparkSession" else "SchemaRDD".

(** Lines 225-228: whether the gateway is made with [auto_convert = True]. *)
Definition gateway_auto_convert (sparkVersion : t) : bool :=
  isAutoConvertEnabled sparkVersion.

(** Lines 230-251: the calls of [java_import], in their order. *)
Definition java_imports (sparkVersion : t) : list string :=
  (["org.apache.spark.SparkEnv"; "org.apache.spark.SparkConf";
    "org.apache.spark.api.java.*"; "org.apache.spark.api.python.*";
    "org.apache.spark.mllib.api.python.*"]
   ++ (if isImportAllPackageUnderSparkSql sparkVersion
       then ["org.apache.spark.sql.*"; "org.apache.spark.sql.hive.*"]
       else ["org.apache.spark.sql.SQLContext";
             "org.apache.spark.sql.hive.HiveContext";
             "org.apache.spark.sql.hive.LocalHiveContext";
             "org.apache.spark.sql.hive.TestHiveContext"])
   ++ ["scala.Tuple2"])%list.

(** Lines 253-263: the names the script binds after the gateway is up. *)
Definition session_names (sparkVersion : t) : list string :=
  (["jconf"; "conf"; "sc"; "sqlc"; "sqlContext"]
   ++ (if isSpark2 sparkVersion then ["spark"] else [])
   ++ ["completion"; "z"])%list.

End SparkVersion.

(** ** PyZeppelinContext: the input forms *)

Module Forms.

Inductive error : Type :=
  | IndexError (msg : string).

(** The calls made on the host's ZeppelinContext by the forms; the options
    reach it as [scala.Tuple2] objects. *)
Inductive form_call : Type :=
  | Zinput (name : string) (defaultValue : value)
  | Zselect (name : string) (defaultValue : value) (options : list (value * value))
  | Zcheckbox (name : string) (defaultChecked : list value)
      (options : list (value * value)).

(** Lines 118-119 *)
Definition input (name : string) (defaultValue : value) : form_call :=
  Zinput name defaultValue.

(** Lines 137-141; a Python tuple is the list of its items. *)
Definition __tupleToScalaTuple2 (tuple : list value) : error + (value * value) :=
  match tuple with
  | [a; b] => inr (a, b)
  | _ => inl (IndexError "options must be a list of tuple of 2")
  end.

(** [list(map(lambda items: self.__tupleToScalaTuple2(items), options))]:
    the first tuple that is refused raises. *)
Fixpoint to_tuples (options : list (list value)) : error + list (value * value) :=
  match options with
  | [] => inr []
  | items :: rest =>
      match __tupleToScalaTuple2 items with
      | inl e => inl e
      | inr t =>
          match to_tuples rest with
          | inl e => inl e
          | inr ts => inr (t :: ts)
          end
      end
  end.

(** [list(map(lambda items: items[0], options))] *)
Fixpoint first_items (options : list (list value)) : error + list value :=
  match options with
  | [] => inr []
  | items :: rest =>
      match items with
      | [] => inl (IndexError "tuple index out of range")
      | a :: _ =>
          match first_items rest with
          | inl e => inl e
          | inr l => inr (a :: l)
          end
      end
  end.

(** The items of a pair. *)
Definition untuple (t : value * value) : list value := [t.1; t.2].

(** Lines 121-125 *)
Definition select (name : string) (options : list (list value))
    (defaultValue : value) : error + form_call :=
  match to_tuples options with
  | inl e => inl e
  | inr tuples => inr (Zselect name defaultValue tuples)
  end.

(** Lines 127-135 *)
Definition checkbox (name : string) (options : list (list value))
    (defaultChecked : option (list value)) : error + form_call :=
  match (match defaultChecked with
         | None => first_items options
         | Some d => inr d
         end) with
  | inl e => inl e
  | inr defaultChecked =>
      match to_tuples options with
      | inl e => inl e
      | inr optionTuples => inr (Zcheckbox name defaultChecked optionTuples)
      end
  end.

End Forms.

(** ** PyZeppelinContext: programs that use the proxy *)

Module ProxyUse.

Import PyZeppelinContext.

(** One use of the object in user code. *)
Inductive use : Type :=
  | UAdd (key : string) (item : value)     (* z.add(key, item) *)
  | UPut (key : string) (item : value)     (* z.put(key, item) *)
  | USet (key : string) (item : value)     (* z[key] = item *)
  | UGet (key : string)                    (* z.get(key) *)
  | UItem (key : string)                   (* z[key] *)
  | UIn (key : string)                     (* key in z *)
  | UDel (key : string).                   (* del z[key] *)

(** The call on the host that a use comes down to. *)
Definition call_of (u : use) : zcall :=
  match u with
  | UAdd key item | UPut key item | USet key item => Zput key item
  | UGet key | UItem key => Zget key
  | UIn key => ZcontainsKey key
  | UDel key => Zremove key
  end.

Section Use.

Context (host_get : list zcall -> string -> value).
Context (host_containsKey : list zcall -> string -> bool).

Definition run_use (self : t) (u : use) : t :=
  match u with
  | UAdd key item => add self key item
  | UPut key item => put self key item
  | USet key item => __setitem__ self key item
  | UGet key => (get host_get self key).1
  | UItem key => (__getitem__ host_get self key).1
  | UIn key => (__contains__ host_containsKey self key).1
  | UDel key => __delitem__ self key
  end.

Definition run_uses (self : t) (us : list use) : t := foldl run_use self us.

End Use.

End ProxyUse.

(** ** A second small runtime, with more texts *)

Module Demo2.

Definition sources : list (string * list stmt) :=
  ([ ("y = 7" +:+ nl_s +:+ "undefined_name",
       [Assign "y" (ENum 7); Expr (EName "undefined_name")]);
     ("objectDefList = dir(text_value)",
       [Assign "objectDefList" (EDir (EName "text_value"))]);
     ("objectDefList = dir(self)",
       [Assign "objectDefList" (EDir (EName "self"))]) ]
   ++ Demo.sources)%list.

Definition rt : Runtime := {|
  compile_ast := Demo.parse sources;
  stack := stack Demo.rt;
  message := message Demo.rt;
  exc_info := exc_info Demo.rt;
  repr_obj := repr_obj Demo.rt;
  attrs := fun v =>
    match v with
    | VStr _ => ["__len__"; "strip"; "upper"]
    | VObj "completion" => ["__init__"; "getCompletion"]
    | _ => attrs Demo.rt v
    end;
  obj_items := obj_items Demo.rt;
  json_str := json_str Demo.rt
|}.

End Demo2.

(** * The script as Python runs it

    The definitions above take the loop with its own names ([intp], [sc],
    [ast], [len], ...) as fixed.  Python looks each of them up when it is
    used: in the module's globals, which are also the globals of the code
    the loop executes, and then in the builtins.  The module [Script] follows
    the file in this way.

    - A name the file uses is looked up at the place of use.  When it is
      bound to the object the script or Python bound it to, the file's code
      does what it is written to do; when it is bound to [None], a number,
      a string or a list, the attribute access or the call raises as Python
      does; when it is bound to anything else, the run is not followed any
      further ([Stray]).
    - The executed code is a fragment of Python: assignments, expression
      statements and [del], over constants, names, [+], [//] and calls of
      a name with at most one argument, of which the calls of the builtins
      [dir] and [print] are followed.  Any other statement or call is
      [Stray].
    - [untouched] records that the objects the script created or imported
      and the standard streams are as the script left them; nothing in the
      fragment changes that. *)

Module Script.

Inductive expr : Type :=
  | ENum (n : Z)
  | EStr (s : string)
  | ENone
  | EName (x : string)
  | EAdd (a b : expr)
  | EFloorDiv (a b : expr)
  | ECall0 (f : string)                (* f() *)
  | ECall1 (f : string) (a : expr).    (* f(a) *)

Inductive stmt : Type :=
  | Assign (x : string) (e : expr)   (* x = e *)
  | Expr (e : expr)                  (* e *)
  | Delete (x : string)              (* del x *)
  | Other (src : string).            (* any other statement *)

#[warnings="-register-all"]
Inductive value : Type :=
  | VNone
  | VInt (n : Z)
  | VStr (s : string)
  | VList (l : list value)
  | VNode (u : stmt)                  (* one ast node *)
  | VTree (body : list stmt)          (* the ast.Module of a whole batch *)
  | VAst (m : mode) (node : value)    (* ast.Module([node]), ast.Interactive([node]) *)
  | VCode (m : mode) (u : stmt)       (* a code object *)
  | VReq (r : request)
  | VObj (id : string).               (* any other object, by identity; the object a
                                         name [x] of the script or of the builtins is
                                         first bound to is [VObj x] *)

Inductive exn : Type :=
  | SyntaxError (msg : string)
  | NameError (x : string)
  | TypeError
  | AttributeError
  | ZeroDivisionError
  | KeyError (key : string)
  | Py4JJavaError (msg : string)
  | Exception (text : string).

Definition is_Py4JJavaError (e : exn) : bool :=
  match e with Py4JJavaError _ => true | _ => false end.

(** [None], numbers, strings and lists: they have none of the attributes the
    file asks for and cannot be called. *)
Definition plain (v : value) : bool :=
  match v with
  | VNone | VInt _ | VStr _ | VList _ => true
  | _ => false
  end.

(** What the Python runtime supplies. *)
Record Runtime : Type := {
  (* compile(text, '<stdin>', 'exec', ast.PyCF_ONLY_AST, 1).body, or what it raises *)
  compile_ast : string -> exn + list stmt;
  (* what a traceback prints between its first line and the class name of
     the exception *)
  stack : exn -> string;
  (* str(e) of the builtin exceptions *)
  message : exn -> string;
  (* str(sys.exc_info()) *)
  exc_info : exn -> string;
  (* repr(v) of the values that are no int *)
  repr_obj : value -> string;
  (* str(v) of the values that are no int, str or None *)
  str_obj : value -> string;
  (* dir(v) *)
  attrs : value -> list string;
  (* json.dumps(s) of one str *)
  json_str : string -> string
}.

(** The module's globals, the builtins, whether the script's objects are as
    it left them, the calls made on the host so far, and a record of the
    nodes handed to [exec] so far. *)
Record state : Type := State {
  globals : gmap string value;
  builtins : gmap string value;
  untouched : bool;
  host : list host_event;
  ran : list (mode * stmt)
}.

(** How a piece of the file ends: normally, with an exception, or at a place
    where the run is not followed. *)
Inductive result (A : Type) : Type :=
  | Ok (a : A) (st : state)
  | Raise (e : exn) (st : state)
  | Stray (site : string) (st : state).
Arguments Ok {A} a st.
Arguments Raise {A} e st.
Arguments Stray {A} site st.

Definition M (A : Type) : Type := state -> result A.

Definition ret {A} (a : A) : M A := fun st => Ok a st.
Definition raise {A} (e : exn) : M A := fun st => Raise e st.
Definition stray {A} (site : string) : M A := fun st => Stray site st.

Definition bind {A B} (m : M A) (k : A -> M B) : M B :=
  fun st =>
    match m st with
    | Ok a st' => k a st'
    | Raise e st' => Raise e st'
    | Stray site st' => Stray site st'
    end.

(** [try: m except: h] *)
Definition catch {A} (m : M A) (h : exn -> M A) : M A :=
  fun st =>
    match m st with
    | Raise e st' => h e st'
    | r => r
    end.

Notation "'let*' x ':=' m 'in' k" := (bind m (fun x => k))
  (at level 10, x name, m at level 100, k at level 200).
Notation "m ';;' k" := (bind m (fun _ => k))
  (at level 100, k at level 200, right associativity).

(** The writes. *)
Definition set_global (x : string) (v : value) (st : state) : state :=
  State (<[x := v]> (globals st)) (builtins st) (untouched st) (host st) (ran st).

Definition del_global (x : string) (st : state) : state :=
  State (delete x (globals st)) (builtins st) (untouched st) (host st) (ran st).

Definition set_builtin (x : string) (v : value) (st : state) : state :=
  State (globals st) (<[x := v]> (builtins st)) (untouched st) (host st) (ran st).

Definition add_host (evs : list host_event) (st : state) : state :=
  State (globals st) (builtins st) (untouched st) (host st ++ evs)%list (ran st).

Definition add_ran (m : mode) (u : stmt) (st : state) : state :=
  State (globals st) (builtins st) (untouched st) (host st) (ran st ++ [(m, u)])%list.

Definition store (x : string) (v : value) : M unit :=
  fun st => Ok tt (set_global x v st).

Definition store_builtin (x : string) (v : value) : M unit :=
  fun st => Ok tt (set_builtin x v st).

Definition emit (evs : list host_event) : M unit :=
  fun st => Ok tt (add_host evs st).

Definition note_ran (m : mode) (u : stmt) : M unit :=
  fun st => Ok tt (add_ran m u st).

(** A name of the module: its globals, then the builtins. *)
Definition resolve (x : string) (st : state) : option value :=
  match globals st !! x with
  | Some v => Some v
  | None => builtins st !! x
  end.

Definition load (x : string) : M value :=
  fun st =>
    match resolve x st with
    | Some v => Ok v st
    | None => Raise (NameError x) st
    end.

(** The file uses what it found under its name [x]: fine when that is the
    object first bound to [x]; [otherwise] is raised when it is plain. *)
Definition own_object (x : string) (v : value) (otherwise : exn) : M unit :=
  fun st =>
    match v with
    | VObj id => if String.eqb id x && untouched st then Ok tt st else Stray x st
    | VNone | VInt _ | VStr _ | VList _ => Raise otherwise st
    | _ => Stray x st
    end.

(** [v.attribute] and [v(...)] at a place where the file means [x] *)
Definition attr (x : string) (v : value) : M unit := own_object x v AttributeError.
Definition call (x : string) (v : value) : M unit := own_object x v TypeError.

Definition pristine (site : string) : M unit :=
  fun st => if untouched st then Ok tt st else Stray site st.

(** Lines 46-47; [intp] is a global of the module. *)
Definition Logger_write (message : string) : M unit :=
  let* v := load "intp" in
  attr "intp" v;;
  emit [AppendOutput message].

(** [sys.stdout.write], the script having set [sys.stdout] to its [Logger]
    (line 213). *)
Definition stdout_write (message : string) : M unit :=
  pristine "sys.stdout";; Logger_write message.

(** [sorted] on names *)
Fixpoint insert_sorted (x : string) (l : list string) : list string :=
  match l with
  | [] => [x]
  | y :: rest => if String.leb x y then x :: l else y :: insert_sorted x rest
  end.

Definition sorted (l : list string) : list string := foldr insert_sorted [] l.

Section Semantics.

Context (rt : Runtime).

(** [repr(v)] and [str(v)] *)
Definition repr (v : value) : string :=
  match v with
  | VInt n => pretty n
  | _ => repr_obj rt v
  end.

Definition str (v : value) : string :=
  match v with
  | VInt n => pretty n
  | VStr s => s
  | VNone => "None"
  | _ => str_obj rt v
  end.

Definition traceback_head : string := "Traceback (most recent call last):".

Definition exn_name (e : exn) : string :=
  match e with
  | SyntaxError _ => "SyntaxError"
  | NameError _ => "NameError"
  | TypeError => "TypeError"
  | AttributeError => "AttributeError"
  | ZeroDivisionError => "ZeroDivisionError"
  | KeyError _ => "KeyError"
  | Py4JJavaError _ => "Py4JJavaError"
  | Exception _ => "Exception"
  end.

Definition exn_str (e : exn) : string :=
  match e with
  | Py4JJavaError m => m
  | Exception t => t
  | _ => message rt e
  end.

(** [traceback.format_exc()] while [e] is handled *)
Definition format_exc (e : exn) : string :=
  traceback_head +:+ nl_s +:+ stack rt e
    +:+ exn_name e +:+ ": " +:+ exn_str e +:+ nl_s.

(** The local dictionary of the code that runs, when it is not the globals. *)
Definition scope : Type := option (gmap string value).

Definition lookup (l : scope) (x : string) : M value :=
  fun st =>
    match (match l with Some d => d !! x | None => None end) with
    | Some v => Ok v st
    | None => load x st
    end.

Definition local_names (l : scope) (st : state) : list string :=
  match l with
  | Some d => (map_to_list d).*1
  | None => (map_to_list (globals st)).*1
  end.

Definition add_values (a b : value) : M value :=
  match a, b with
  | VInt m, VInt n => ret (VInt (m + n))
  | VStr s, VStr t => ret (VStr (s +:+ t))
  | VList s, VList t => ret (VList (s ++ t)%list)
  | _, _ => if plain a && plain b then raise TypeError else stray "+"
  end.

Definition floordiv_values (a b : value) : M value :=
  match a, b with
  | VInt m, VInt n => if n =? 0 then raise ZeroDivisionError else ret (VInt (m / n))
  | _, _ => if plain a && plain b then raise TypeError else stray "//"
  end.

(** A call: of the builtin [dir], of the builtin [print], of something that
    cannot be called; any other call is not followed. *)
Definition apply (l : scope) (callee : value) (arg : option value) : M value :=
  match callee with
  | VObj id =>
      if String.eqb id "dir" then
        pristine "dir";;
        fun st =>
          match arg with
          | None => Ok (VList (VStr <$> sorted (local_names l st))) st
          | Some v => Ok (VList (VStr <$> attrs rt v)) st
          end
      else if String.eqb id "print" then
        pristine "print";;
        match arg with
        | None => stdout_write nl_s
        | Some v => stdout_write (str v);; stdout_write nl_s
        end;;
        ret VNone
      else stray "call"
  | VNone | VInt _ | VStr _ | VList _ => raise TypeError
  | _ => stray "call"
  end.

Fixpoint eval (l : scope) (e : expr) : M value :=
  match e with
  | ENum n => ret (VInt n)
  | EStr s => ret (VStr s)
  | ENone => ret VNone
  | EName x => lookup l x
  | EAdd a b =>
      let* va := eval l a in
      let* vb := eval l b in
      add_values va vb
  | EFloorDiv a b =>
      let* va := eval l a in
      let* vb := eval l b in
      floordiv_values va vb
  | ECall0 f =>
      let* callee := lookup l f in
      apply l callee None
  | ECall1 f a =>
      let* callee := lookup l f in
      let* va := eval l a in
      apply l callee (Some va)
  end.

(** [sys.displayhook] *)
Definition displayhook (v : value) : M unit :=
  match v with
  | VNone => ret tt
  | _ =>
      pristine "sys.displayhook";;
      store_builtin "_" VNone;;
      stdout_write (repr v);;
      stdout_write nl_s;;
      store_builtin "_" v
  end.

(** [exec(code, g, l)] for the code of one node, compiled in mode [m]: the
    local dictionary after it. *)
Definition exec_stmt (m : mode) (l : scope) (u : stmt) : M scope :=
  match u with
  | Assign x e =>
      let* v := eval l e in
      match l with
      | Some d => ret (Some (<[x := v]> d))
      | None => store x v;; ret None
      end
  | Expr e =>
      let* v := eval l e in
      match m with
      | ExecMode => ret l
      | SingleMode => displayhook v;; ret l
      end
  | Delete x =>
      match l with
      | Some d =>
          match d !! x with
          | Some _ => ret (Some (delete x d))
          | None => raise (NameError x)
          end
      | None =>
          fun st =>
            match globals st !! x with
            | Some _ => Ok None (del_global x st)
            | None => Raise (NameError x) st
            end
      end
  | Other src => stray "statement"
  end.

(** [exec(code, g, l)] for a module: node after node. *)
Fixpoint exec_module (l : scope) (body : list stmt) : M scope :=
  match body with
  | [] => ret l
  | u :: rest => let* l' := exec_stmt ExecMode l u in exec_module l' rest
  end.

(** ** The main loop *)

(** Lines 272-281. *)
Fixpoint filter_loop (stmts : list string) (final_code : list string)
  : M (list string) :=
  match stmts with
  | [] => ret final_code
  | s :: rest =>
      store "s" (VStr s);;
      store "s_stripped" (VStr (strip s));;
      let* f := load "len" in
      call "len" f;;
      if skipped s then filter_loop rest final_code
      else
        let final_code := (final_code ++ [s])%list in
        store "final_code" (VList (VStr <$> final_code));;
        filter_loop rest final_code
  end.

(** Lines 268-281. *)
Definition read_request (req : request) : M (list string) :=
  let stmts := split_nl (statements req) in
  store "stmts" (VList (VStr <$> stmts));;
  store "jobGroup" (VStr (jobGroup req));;
  store "final_code" (VList []);;
  filter_loop stmts [].

(** What a [for] statement iterates over. *)
Definition items_of (v : value) : M (list value) :=
  match v with
  | VList l => ret l
  | VStr s => ret ((fun c => VStr (String c EmptyString)) <$> list_ascii_of_string s)
  | VNone | VInt _ => raise TypeError
  | _ => stray "for"
  end.

(** The body of both loops, lines 292-294 and 297-299. *)
Definition run_node (m : mode) (node : value) : M unit :=
  store "node" node;;
  let* a := load "ast" in
  attr "ast" a;;
  store "mod" (VAst m node);;
  let* c := load "compile" in
  call "compile" c;;
  match node with
  | VNode u =>
      store "code" (VCode m u);;
      let* x := load "exec" in
      call "exec" x;;
      note_ran m u;;
      exec_stmt m None u;;
      ret tt
  | _ => raise TypeError
  end.

Fixpoint run_nodes (m : mode) (nodes : list value) : M unit :=
  match nodes with
  | [] => ret tt
  | node :: rest => run_node m node;; run_nodes m rest
  end.

(** [for node in <name>: ...] *)
Definition for_node_in (name : string) (m : mode) : M unit :=
  let* v := load name in
  let* nodes := items_of v in
  run_nodes m nodes.

(** Line 301. *)
Definition reraise (e : exn) : M unit :=
  let* E := load "Exception" in
  let* t := load "traceback" in
  attr "traceback" t;;
  call "Exception" E;;
  raise (Exception (format_exc e)).

(** Lines 290-301. *)
Definition inner_try : M unit :=
  catch (for_node_in "to_run_exec" ExecMode;;
         for_node_in "to_run_single" SingleMode)
        reraise.

(** Lines 287-288. *)
Definition bind_units (body : list stmt) : M unit :=
  store "code" (VTree body);;
  store "to_run_exec" (VList (VNode <$> take (length body - 1)%nat body));;
  store "to_run_single" (VList (VNode <$> drop (length body - 1)%nat body)).

(** Line 303. *)
Definition report_finished : M unit :=
  let* i := load "intp" in
  attr "intp" i;;
  emit [SetStatementsFinished "" false].

(** Lines 283-303; [rejected] is the host's answer to [sc.setJobGroup]. *)
Definition run_code (rejected : option string) (req : request)
    (final_code : list string) : M unit :=
  match final_code with
  | [] => ret tt
  | _ :: _ =>
      let* v := load "sc" in
      attr "sc" v;;
      emit [SetJobGroup (jobGroup req) "Zeppelin"];;
      match rejected with
      | Some m => raise (Py4JJavaError m)
      | None =>
          let* c := load "compile" in
          let* a := load "ast" in
          attr "ast" a;;
          call "compile" c;;
          match compile_ast rt (join_nl final_code) with
          | inl e => raise e
          | inr body => bind_units body;; inner_try
          end
      end
  end;;
  report_finished.

(** Lines 268-303. *)
Definition try_body (rejected : option string) (req : request) : M unit :=
  let* final_code := read_request req in
  run_code rejected req final_code.

Definition marker : string := "Py4JJavaError:".

(** Lines 305-309. *)
Definition on_Py4JJavaError (e : exn) : M unit :=
  let* t := load "traceback" in
  attr "traceback" t;;
  let excInnerError := format_exc e in
  store "excInnerError" (VStr excInnerError);;
  let innerErrorStart := find excInnerError marker in
  store "innerErrorStart"
    (VInt (match innerErrorStart with Some i => Z.of_nat i | None => -1 end));;
  let excInnerError :=
    match innerErrorStart with
    | Some i => slice_from i excInnerError
    | None => excInnerError
    end in
  match innerErrorStart with
  | Some _ => store "excInnerError" (VStr excInnerError)
  | None => ret tt
  end;;
  let* i := load "intp" in
  attr "intp" i;;
  let* s := load "str" in
  let* y := load "sys" in
  attr "sys" y;;
  call "str" s;;
  emit [SetStatementsFinished (excInnerError +:+ exc_info rt e) true].

(** Line 311. *)
Definition on_other (e : exn) : M unit :=
  let* i := load "intp" in
  attr "intp" i;;
  let* t := load "traceback" in
  attr "traceback" t;;
  emit [SetStatementsFinished (format_exc e) true].

(** Lines 304-311: the clause of line 304 looks its class up when an
    exception arrives. *)
Definition handlers (e : exn) : M unit :=
  let* p := load "Py4JJavaError" in
  call "Py4JJavaError" p;;
  if is_Py4JJavaError e then on_Py4JJavaError e else on_other e.

(** One turn of [while True], lines 266-313.  [Ok]: the loop goes on;
    [Raise]: the exception leaves the loop. *)
Definition iteration (rejected : option string) (req : request) : M unit :=
  let* i := load "intp" in
  attr "intp" i;;
  store "req" (VReq req);;
  catch (try_body rejected req) handlers;;
  let* o := load "output" in
  attr "output" o.

(** How a session ends: the requests are used up, or an exception has left
    the loop, or the run was not followed to the end. *)
Inductive session : Type :=
  | Running (st : state)
  | Stopped (e : exn) (st : state)
  | Lost (site : string) (st : state).

Fixpoint main_loop (reqs : list (option string * request)) (st : state) : session :=
  match reqs with
  | [] => Running st
  | (rejected, req) :: rest =>
      match iteration rejected req st with
      | Ok _ st' => main_loop rest st'
      | Raise e st' => Stopped e st'
      | Stray site st' => Lost site st'
      end
  end.

(** ** PySparkCompletion *)

Fixpoint json_items (l : list string) : string :=
  match l with
  | [] => EmptyString
  | [x] => json_str rt x
  | x :: rest => json_str rt x +:+ ", " +:+ json_items rest
  end.

(** [json.dumps] of a list of str *)
Definition json_dumps (l : list string) : string := "[" +:+ json_items l +:+ "]".

(** Lines 165-173. *)
Definition getGlobalCompletion : M (option (list value)) :=
  catch
    (let* l := load "list" in
     let* g := load "globals" in
     call "globals" g;;
     call "list" l;;
     fun st => Ok (Some (VStr <$> (map_to_list (globals st)).*1)) st)
    (fun _ => ret None).

(** [text_value[-1] == "."] and [text_value[:-1]] *)
Fixpoint ends_with_dot (s : string) : bool :=
  match s with
  | EmptyString => false
  | String c EmptyString => Ascii.eqb c "."
  | String _ s' => ends_with_dot s'
  end.

Fixpoint drop_last (s : string) : string :=
  match s with
  | EmptyString => EmptyString
  | String _ EmptyString => EmptyString
  | String c s' => String c (drop_last s')
  end.

Definition completion_target (text_value : string) : string :=
  if ends_with_dot text_value then drop_last text_value else text_value.

(** Line 185: the statement that is executed. *)
Definition completion_source (completion_target : string) : string :=
  "objectDefList = dir(" +:+ completion_target +:+ ")".

(** [locals()] on entry of [getMethodCompletion] *)
Definition method_locals (text_value : option string) : gmap string value :=
  <["self" := VObj "completion"]>
    (<["text_value" := match text_value with Some t => VStr t | None => VNone end]> ∅).

(** [list(v)] *)
Definition list_of (v : value) : M (list value) :=
  let* l := load "list" in
  call "list" l;;
  items_of v.

(** Lines 180-185, what the [try] covers: the local dictionary afterwards,
    or [None] when something was raised or the text is empty. *)
Definition resolve_prefix (text_value : string) : M (option (gmap string value)) :=
  catch
    (let* f := load "len" in
     call "len" f;;
     if (String.length text_value <=? 0)%nat then ret None
     else
       let* x := load "exec" in
       let* g := load "globals" in
       call "globals" g;;
       call "exec" x;;
       match compile_ast rt (completion_source (completion_target text_value)) with
       | inl e => raise e
       | inr body =>
           let* l := exec_module (Some (method_locals (Some text_value))) body in
           ret l
       end)
    (fun _ => ret None).

(** Lines 175-189. *)
Definition getMethodCompletion (text_value : option string)
  : M (option (list value)) :=
  let* f := load "locals" in
  call "locals" f;;
  match text_value with
  | None => ret None
  | Some text_value =>
      let* r := resolve_prefix text_value in
      match r with
      | None => ret None
      | Some execResult =>
          match execResult !! "objectDefList" with
          | None => raise (KeyError "objectDefList")
          | Some v => let* l := list_of v in ret (Some l)
          end
      end
  end.

(** [completionList.add(completionItem)] for each item; the items the file
    means are names. *)
Fixpoint add_items (items : list value) (completionList : gset string)
  : M (gset string) :=
  match items with
  | [] => ret completionList
  | VStr x :: rest => add_items rest ({[ x ]} ∪ completionList)
  | _ :: _ => stray "completionItem"
  end.

(** [re.match("^__.*", x)]: the pattern matches a prefix of [x], and [.*]
    matches the empty string. *)
Definition re_match_dunder (x : string) : bool := startswith x "__".

(** Line 208: the names that are serialised. *)
Definition offered (completionList : gset string) : list string :=
  filter (fun x => negb (re_match_dunder x) = true) (elements completionList).

(** Lines 193-204: the set that is built. *)
Definition candidates (text_value : option string) : M (gset string) :=
  let* s := load "set" in
  call "set" s;;
  let completionList : gset string := ∅ in
  let* globalCompletionList := getGlobalCompletion in
  let* completionList :=
    match globalCompletionList with
    | Some l => let* items := list_of (VList l) in add_items items completionList
    | None => ret completionList
    end in
  match text_value with
  | None => ret completionList
  | Some _ =>
      let* objectCompletionList := getMethodCompletion text_value in
      match objectCompletionList with
      | Some l => let* items := list_of (VList l) in add_items items completionList
      | None => ret completionList
      end
  end.

(** [self.interpreterObject.setStatementsFinished(text, False)] *)
Definition finished (text : string) : M unit :=
  pristine "interpreterObject";;
  emit [SetStatementsFinished text false].

(** Lines 192-209. *)
Definition getCompletion (text_value : option string) : M unit :=
  let* completionList := candidates text_value in
  let* f := load "len" in
  call "len" f;;
  if (size completionList <=? 0)%nat then finished ""
  else
    let* j := load "json" in
    attr "json" j;;
    let* l := load "list" in
    let* fl := load "filter" in
    call "list" l;;
    call "filter" fl;;
    let* r := load "re" in
    attr "re" r;;
    finished (json_dumps (offered completionList)).

(** Lines 290-313 around what the two loops do. *)
Definition rest_of_turn (loops : M unit) : M unit :=
  catch (catch loops reraise;; report_finished) handlers;;
  let* o := load "output" in
  attr "output" o.

End Semantics.

(** ** What the theorems speak about *)

Definition state_of {A} (r : result A) : state :=
  match r with
  | Ok _ st | Raise _ st | Stray _ st => st
  end.

Definition raised {A} (r : result A) : option exn :=
  match r with
  | Raise e _ => Some e
  | _ => None
  end.

(** [x] denotes the object it was first bound to. *)
Definition held (x : string) (st : state) : bool :=
  match resolve x st with
  | Some (VObj id) => String.eqb id x
  | _ => false
  end.

(** The script's objects are as it left them, and each of [names] denotes
    the object it was first bound to. *)
Definition hold (names : list string) (st : state) : bool :=
  untouched st && forallb (fun x => held x st) names.

(** The names a node binds or unbinds when it succeeds. *)
Definition target (u : stmt) : list string :=
  match u with
  | Assign x _ => [x]
  | Delete x => [x]
  | _ => []
  end.

(** [st'] differs from [st] in the two dictionaries at most at [xs]. *)
Definition frame (xs : list string) (st st' : state) : Prop :=
  untouched st' = untouched st
  /\ forall y, y ∉ xs ->
       globals st' !! y = globals st !! y /\ builtins st' !! y = builtins st !! y.

Definition is_output (ev : host_event) : bool :=
  match ev with
  | AppendOutput _ => true
  | _ => false
  end.

(** Whether a node holds a call. *)
Fixpoint has_call (e : expr) : bool :=
  match e with
  | ENum _ | EStr _ | ENone | EName _ => false
  | EAdd a b | EFloorDiv a b => has_call a || has_call b
  | ECall0 _ | ECall1 _ _ => true
  end.

Definition calls (u : stmt) : bool :=
  match u with
  | Assign _ e | Expr e => has_call e
  | Delete _ => false
  | Other _ => true
  end.

(** The state a session ends in, and whether the loop still runs. *)
Definition final (s : session) : state :=
  match s with
  | Running st | Stopped _ st | Lost _ st => st
  end.

Definition running (s : session) : bool :=
  match s with
  | Running _ => true
  | _ => false
  end.

(** [st'] is [st] after output was written. *)
Definition wrote (st st' : state) : Prop :=
  exists outs, st' = add_host outs st /\ forallb is_output outs = true.

(** [u] binds and unbinds none of [names]. *)
Definition leaves (names : list string) (u : stmt) : bool :=
  forallb (fun x => bool_decide (x ∉ names)) (target u).

(** The state in which [exec] is entered for the node [u] in one of the two
    loops: lines 291-293 and 296-298 have bound [node], [mod] and [code]. *)
Definition at_exec (m : mode) (u : stmt) (st : state) : state :=
  add_ran m u
    (set_global "code" (VCode m u)
       (set_global "mod" (VAst m (VNode u))
          (set_global "node" (VNode u) st))).

(** [st'] comes after [st]: more nodes were handed to [exec], and the two
    dictionaries differ at most at the loop's own variables, at the names
    those nodes bind or unbind, and at [_]. *)
Definition follows (st st' : state) : Prop :=
  exists new,
    ran st' = (ran st ++ new)%list
    /\ untouched st' = untouched st
    /\ forall y, y ∉ loop_vars -> y <> "_" ->
         (forall m u, (m, u) ∈ new -> y ∉ target u) ->
         globals st' !! y = globals st !! y /\ builtins st' !! y = builtins st !! y.

(** [st'] is [st] after output was written and names among [xs] were bound
    or unbound. *)
Definition touches (xs : list string) (st st' : state) : Prop :=
  ran st' = ran st /\ frame xs st st'
  /\ exists outs, host st' = (host st ++ outs)%list /\ forallb is_output outs = true.

(** Code that at most writes output, and code that keeps to [follows]. *)
Definition quiet {A} (f : M A) : Prop := forall st, wrote st (state_of (f st)).

Definition tame {A} (f : M A) : Prop := forall st, follows st (state_of (f st)).

Definition touching {A} (xs : list string) (f : M A) : Prop :=
  forall st, touches xs st (state_of (f st)).

(** The names the lines of the loop read: lines 266-299, 303 and 313, ... *)
Definition turn_reads : list string :=
  ["intp"; "len"; "sc"; "compile"; "ast"; "exec"; "output"].

(** ... lines 301, 304 and 311, ... *)
Definition failure_reads : list string :=
  ["Exception"; "traceback"; "Py4JJavaError"].

(** ... lines 305-309, ... *)
Definition fault_reads : list string := ["str"; "sys"].

(** ... and lines 165-209. *)
Definition completion_reads : list string :=
  ["set"; "list"; "globals"; "len"; "json"; "filter"; "re"; "locals"; "exec"].

(** The state in which line 290 is reached when the text parsed to [body]:
    lines 266-288 have stored the loop's variables and called
    [sc.setJobGroup]. *)
Definition prepared (req : request) (body : list stmt) (st : state) : state :=
  state_of
    ((store "req" (VReq req);;
      read_request req;;
      emit [SetJobGroup (jobGroup req) "Zeppelin"];;
      bind_units body) st).

(** ** A state in which the script has just started, and a small runtime *)

Module Demo.

Definition quote : string := String "034" EmptyString.

Definition script_names : list string :=
  ["sys"; "traceback"; "json"; "re"; "ast"; "Py4JJavaError"; "output"; "intp";
   "sc"; "sqlc"; "sqlContext"; "completion"; "z"].

Definition builtin_names : list string :=
  ["len"; "compile"; "exec"; "Exception"; "str"; "list"; "set"; "filter";
   "globals"; "locals"; "dir"; "print"].

Definition dict_of (names : list string) : gmap string value :=
  list_to_map ((fun x => (x, VObj x)) <$> names).

Definition start : state :=
  State (<["__name__" := VStr "__main__"]>
           (<["__builtins__" := VObj "__builtins__"]> (dict_of script_names)))
        (dict_of builtin_names) true [] [].

Definition sources : list (string * list stmt) :=
  [ ("2 + 2", [Expr (EAdd (ENum 2) (ENum 2))]);
    ("x = 5", [Assign "x" (ENum 5)]);
    ("x = 1", [Assign "x" (ENum 1)]);
    ("x", [Expr (EName "x")]);
    ("s = 1", [Assign "s" (ENum 1)]);
    ("s", [Expr (EName "s")]);
    ("len = 1", [Assign "len" (ENum 1)]);
    ("intp = 1", [Assign "intp" (ENum 1)]);
    ("locals = 1", [Assign "locals" (ENum 1)]);
    ("y = 7" +:+ nl_s +:+ "2 + 2",
      [Assign "y" (ENum 7); Expr (EAdd (ENum 2) (ENum 2))]);
    ("print(7)" +:+ nl_s +:+ "2 + 2",
      [Expr (ECall1 "print" (ENum 7)); Expr (EAdd (ENum 2) (ENum 2))]);
    ("1 // 0" +:+ nl_s +:+ "2 + 2",
      [Expr (EFloorDiv (ENum 1) (ENum 0)); Expr (EAdd (ENum 2) (ENum 2))]);
    ("to_run_single = to_run_exec" +:+ nl_s +:+ "2 + 2",
      [Assign "to_run_single" (EName "to_run_exec"); Expr (EAdd (ENum 2) (ENum 2))]);
    ("ast = 1" +:+ nl_s +:+ "2 + 2",
      [Assign "ast" (ENum 1); Expr (EAdd (ENum 2) (ENum 2))]);
    ("y = 7" +:+ nl_s +:+ "1 // 0" +:+ nl_s +:+ "y = 8",
      [Assign "y" (ENum 7); Expr (EFloorDiv (ENum 1) (ENum 0)); Assign "y" (ENum 8)]);
    ("code = 1" +:+ nl_s +:+ "1 // 0" +:+ nl_s +:+ "3",
      [Assign "code" (ENum 1); Expr (EFloorDiv (ENum 1) (ENum 0)); Expr (ENum 3)]);
    ("intp = 1" +:+ nl_s +:+ "1 // 0" +:+ nl_s +:+ "3",
      [Assign "intp" (ENum 1); Expr (EFloorDiv (ENum 1) (ENum 0)); Expr (ENum 3)]);
    ("y = len" +:+ nl_s +:+ "x = 5" +:+ nl_s +:+ "3",
      [Assign "y" (EName "len"); Assign "x" (ENum 5); Expr (ENum 3)]);
    ("objectDefList = dir(undefined_name)",
      [Assign "objectDefList" (ECall1 "dir" (EName "undefined_name"))]);
    ("objectDefList = dir(obj)",
      [Assign "objectDefList" (ECall1 "dir" (EName "obj"))]);
    ("objectDefList = dir(str)",
      [Assign "objectDefList" (ECall1 "dir" (EName "str"))]);
    ("objectDefList = dir(text_value)",
      [Assign "objectDefList" (ECall1 "dir" (EName "text_value"))]);
    ("objectDefList = dir()",
      [Assign "objectDefList" (ECall0 "dir")]) ].

Fixpoint parse (table : list (string * list stmt)) (text : string) : exn + list stmt :=
  match table with
  | [] => inl (SyntaxError "invalid syntax")
  | (src, body) :: rest => if String.eqb src text then inr body else parse rest text
  end.

Definition rt : Runtime := {|
  compile_ast := parse sources;
  stack := fun _ => "  File <stdin>, line 1, in <module>" +:+ nl_s;
  message := fun e =>
    match e with
    | NameError x => "name '" +:+ x +:+ "' is not defined"
    | ZeroDivisionError => "integer division or modulo by zero"
    | SyntaxError m => m
    | TypeError => "object is not callable"
    | AttributeError => "object has no attribute"
    | _ => EmptyString
    end;
  exc_info := fun e => "(<class '" +:+ exn_name e +:+ "'>, ...)";
  repr_obj := fun v => match v with VStr s => "'" +:+ s +:+ "'" | _ => "<object>" end;
  str_obj := fun _ => "<object>";
  attrs := fun v =>
    match v with
    | VObj id => if String.eqb id "obj" then ["__init__"; "method1"]
                 else if String.eqb id "str" then ["__add__"; "strip"; "upper"]
                 else ["__class__"]
    | VStr _ => ["__len__"; "strip"; "upper"]
    | _ => ["__class__"]
    end;
  json_str := fun s => quote +:+ s +:+ quote
|}.

End Demo.

End Script.

(** * Properties *)

(** ** The statement filter *)

Section Splitter.

Lemma str_nil (s : string) : EmptyString +:+ s = s.
Proof. reflexivity. Qed.

Lemma str_cons (c : ascii) (a b : string) : String c a +:+ b = String c (a +:+ b).
Proof. reflexivity. Qed.

Ltac str_simpl := simpl; rewrite ?str_cons, ?str_nil; simpl.

Lemma lstrip_split (s : string) :
  exists a, s = a +:+ lstrip s /\ all_space a = true.
Proof.
  induction s as [|c s [a [Hs Ha]]]; str_simpl.
  - exists EmptyString. done.
  - destruct (isspace c) eqn:Hc.
    + exists (String c a). split; str_simpl; [f_equal; exact Hs | by rewrite Hc].
    + exists EmptyString. done.
Qed.

Lemma lstrip_first (s : string) : is_space_opt (first_char (lstrip s)) = false.
Proof.
  induction s as [|c s IH]; str_simpl; [done|].
  destruct (isspace c) eqn:Hc; [done | str_simpl; done].
Qed.

Lemma rstrip_split (s : string) :
  exists b, s = rstrip s +:+ b /\ all_space b = true.
Proof.
  induction s as [|c s [b [Hs Hb]]]; str_simpl.
  - exists EmptyString. done.
  - destruct (rstrip s) as [|d r] eqn:Hr.
    + rewrite str_nil in Hs. subst b. destruct (isspace c) eqn:Hc.
      * exists (String c s). str_simpl. rewrite Hc, Hb. done.
      * exists s. done.
    + exists b. str_simpl. split; [|done]. f_equal. exact Hs.
Qed.

Lemma rstrip_last (s : string) : is_space_opt (last_char (rstrip s)) = false.
Proof.
  induction s as [|c s IH]; str_simpl; [done|].
  destruct (rstrip s) as [|d r] eqn:Hr.
  - destruct (isspace c) eqn:Hc; str_simpl; [done | by rewrite Hc].
  - exact IH.
Qed.

Lemma rstrip_first (s : string) :
  is_space_opt (first_char s) = false -> is_space_opt (first_char (rstrip s)) = false.
Proof.
  destruct s as [|c s]; str_simpl; [done|].
  intros Hc. destruct (rstrip s); [rewrite Hc|]; str_simpl; done.
Qed.

(** [strip] removes white space at both ends and nothing else. *)
Lemma strip_spec (s : string) :
  (exists a b, s = a +:+ strip s +:+ b /\ all_space a = true /\ all_space b = true)
  /\ is_space_opt (first_char (strip s)) = false
  /\ is_space_opt (last_char (strip s)) = false.
Proof.
  unfold strip. split; [|split].
  - destruct (lstrip_split s) as [a [Hs Ha]].
    destruct (rstrip_split (lstrip s)) as [b [Ht Hb]].
    exists a, b. split; [|done]. rewrite <- Ht. exact Hs.
  - apply rstrip_first, lstrip_first.
  - apply rstrip_last.
Qed.

Lemma skipped_spec (s : string) :
  skipped s = true <-> strip s = EmptyString \/ exists r, strip s = String "#" r.
Proof.
  unfold skipped. destruct (strip s) as [|c r]; cbn -[Ascii.eqb].
  - split; [by left | done].
  - destruct (Ascii.eqb_spec "#" c) as [<- | Hne]; simpl.
    + split; [intros _; right; by exists r | intros _; by destruct r].
    + split; [done | intros [H | [r' H]]; [done | congruence]].
Qed.

Lemma split_nl_nonempty (s : string) : split_nl s <> [].
Proof.
  induction s as [|c s IH]; str_simpl; [done|].
  destruct (split_nl s); [done|]. by destruct (Ascii.eqb c nl).
Qed.

Lemma join_nl_cons (c : ascii) (l : string) (ls : list string) :
  join_nl (String c l :: ls) = String c (join_nl (l :: ls)).
Proof. by destruct ls. Qed.

Lemma join_split_nl (s : string) : join_nl (split_nl s) = s.
Proof.
  induction s as [|c s IH]; [done|].
  cbn [split_nl].
  destruct (split_nl s) as [|l ls] eqn:Hs; [by apply split_nl_nonempty in Hs|].
  destruct (Ascii.eqb_spec c nl) as [-> | Hne].
  - change (join_nl (EmptyString :: l :: ls)) with (String nl (join_nl (l :: ls))).
    by rewrite IH.
  - by rewrite join_nl_cons, IH.
Qed.

Lemma split_nl_lines (s : string) : Forall (fun l => no_nl l = true) (split_nl s).
Proof.
  induction s as [|c s IH]; str_simpl; [by repeat constructor|].
  destruct (split_nl s) as [|l ls]; [done|].
  inversion IH as [|? ? Hl Hls]; subst.
  destruct (Ascii.eqb c nl) eqn:Hc.
  - by repeat constructor.
  - constructor; [str_simpl; by rewrite Hc | done].
Qed.

Lemma split_nl_line (l : string) : no_nl l = true -> split_nl l = [l].
Proof.
  induction l as [|c l IH]; str_simpl; [done|].
  destruct (Ascii.eqb c nl); str_simpl; [done|]. intros H. by rewrite IH.
Qed.

Lemma split_nl_app (l rest : string) :
  no_nl l = true -> split_nl (l +:+ nl_s +:+ rest) = l :: split_nl rest.
Proof.
  induction l as [|c l IH]; str_simpl.
  - intros _. destruct (split_nl rest) eqn:Hr; [by apply split_nl_nonempty in Hr|].
    done.
  - destruct (Ascii.eqb c nl); str_simpl; [done|]. intros H.
    by rewrite IH.
Qed.

Lemma split_join_nl (kept : list string) :
  kept <> [] -> Forall (fun l => no_nl l = true) kept -> split_nl (join_nl kept) = kept.
Proof.
  induction kept as [|l kept IH]; [done|]. intros _ Hall.
  inversion Hall as [|? ? Hl Hk]; subst.
  destruct kept as [|l' kept].
  - str_simpl. by apply split_nl_line.
  - change (join_nl (l :: l' :: kept)) with (l +:+ nl_s +:+ join_nl (l' :: kept)).
    rewrite split_nl_app by done. f_equal. by apply IH.
Qed.

Lemma filter_loop_final_code (stmts final_code : list string) (st : state) :
  (filter_loop stmts final_code st).2
  = (final_code ++ filter (fun s => skipped s = false) stmts)%list.
Proof.
  revert final_code st. induction stmts as [|s stmts IH]; intros final_code st; str_simpl.
  - by rewrite app_nil_r.
  - destruct (skipped s) eqn:Hs.
    + rewrite IH. by rewrite filter_cons_False by congruence.
    + rewrite IH. rewrite filter_cons_True by done. by rewrite <- app_assoc.
Qed.

Lemma read_request_kept (req : request) (st : state) :
  (read_request req st).2
  = filter (fun s => skipped s = false) (split_nl (statements req)).
Proof. unfold read_request. by rewrite filter_loop_final_code. Qed.

Lemma try_body_kept (rt : Runtime) (rejected : option string) (req : request)
    (st : state) :
  try_body rt rejected req st
  = run_code rt rejected req
      (filter (fun s => skipped s = false) (split_nl (statements req)))
      (read_request req st).1.
Proof.
  unfold try_body. pose proof (read_request_kept req st) as Hk.
  destruct (read_request req st) as [st1 fc]. simpl in Hk. by subst fc.
Qed.

End Splitter.


(** ** The proxy of the host's ZeppelinContext *)

Section ProxyFacts.

Import PyZeppelinContext.

(** C10: [add], [put] and item assignment are one and the same single [put]
    on the host; [get] and item access are one and the same single [get],
    whose answer is returned as it is; the membership test is one
    [containsKey], item deletion one [remove]; the entries of the underlying
    dictionary are never touched. *)
Theorem proxy_forwards (host_get : list zcall -> string -> value)
    (host_containsKey : list zcall -> string -> bool)
    (self : PyZeppelinContext.t) (key : string) (item : value) :
  add self key item = __setitem__ self key item
  /\ put self key item = __setitem__ self key item
  /\ __setitem__ self key item
     = Make (z self ++ [Zput key item]) (entries self) (max_result self)
  /\ get host_get self key = __getitem__ host_get self key
  /\ __getitem__ host_get self key
     = (Make (z self ++ [Zget key]) (entries self) (max_result self),
        host_get (z self) key)
  /\ __contains__ host_containsKey self key
     = (Make (z self ++ [ZcontainsKey key]) (entries self) (max_result self),
        host_containsKey (z self) key)
  /\ __delitem__ self key
     = Make (z self ++ [Zremove key]) (entries self) (max_result self).
Proof. repeat split. Qed.

End ProxyFacts.

(** ** The executor *)

Section Executor.

Context (rt : Runtime).

Local Arguments run_node : simpl never.

Lemma follows_refl (st : state) : follows st st.
Proof. exists []. split; [by rewrite app_nil_r | done]. Qed.

Lemma follows_trans (st1 st2 st3 : state) :
  follows st1 st2 -> follows st2 st3 -> follows st1 st3.
Proof.
  intros [n1 [H1 F1]] [n2 [H2 F2]]. exists (n1 ++ n2)%list. split.
  - by rewrite H2, H1, app_assoc.
  - intros x Hx Hk. rewrite F2, F1; [done | done | | done |].
    + intros m e Hin. apply (Hk m e), elem_of_app. by left.
    + intros m e Hin. apply (Hk m e), elem_of_app. by right.
Qed.

Lemma follows_store (x : string) (v : value) (st : state) :
  x ∈ loop_vars -> follows st (store x v st).
Proof.
  intros Hx. exists []. split; [by rewrite app_nil_r|].
  intros y Hy _. simpl. apply lookup_insert_ne. by intros ->.
Qed.

Lemma follows_emit (evs : list host_event) (st : state) : follows st (emit evs st).
Proof. exists []. split; [by rewrite app_nil_r | done]. Qed.

Ltac loop_var := unfold loop_vars, read_vars, unit_vars; simpl; set_solver.

Lemma follows_filter_loop (stmts final_code : list string) (st : state) :
  follows st (filter_loop stmts final_code st).1.
Proof.
  revert final_code st. induction stmts as [|s stmts IH]; intros final_code st; simpl.
  - apply follows_refl.
  - destruct (skipped s).
    + eapply follows_trans; [|apply IH].
      eapply follows_trans; apply follows_store; loop_var.
    + eapply follows_trans; [|apply IH].
      eapply follows_trans; [eapply follows_trans|]; apply follows_store; loop_var.
Qed.

Lemma follows_read_request (req : request) (st : state) :
  follows st (read_request req st).1.
Proof.
  unfold read_request. eapply follows_trans; [|apply follows_filter_loop].
  eapply follows_trans; [eapply follows_trans|]; apply follows_store; loop_var.
Qed.

Lemma host_filter_loop (stmts final_code : list string) (st : state) :
  host (filter_loop stmts final_code st).1 = host st.
Proof.
  revert final_code st. induction stmts as [|s stmts IH]; intros final_code st; simpl;
    [done|]. destruct (skipped s); by rewrite IH.
Qed.

Lemma host_read_request (req : request) (st : state) :
  host (read_request req st).1 = host st.
Proof. unfold read_request. by rewrite host_filter_loop. Qed.

Lemma follows_run_node (m : mode) (node : value) (st : state) :
  follows st (run_node rt m node st).1.
Proof.
  unfold run_node.
  assert (Hw : follows st (wrap_node m node st)).
  { unfold wrap_node. eapply follows_trans; apply follows_store; loop_var. }
  destruct node as [| | | |u| | | | | |]; try exact Hw.
  set (st1 := wrap_node m (VNode u) st).
  assert (Hc : follows st (load_code m u st1)).
  { eapply follows_trans; [exact Hw|]. exists [(m, u)]. split; [done|].
    intros x Hx _. simpl. apply lookup_insert_ne. intros <-. apply Hx. loop_var. }
  destruct (exec_node rt m (globals (load_code m u st1)) (globals (load_code m u st1)) u)
    as [[g out]|e] eqn:He; simpl; [|exact Hc].
  exists [(m, u)]. split; [done|]. intros x Hx Hk.
  assert (Hg : g !! x = globals (load_code m u st1) !! x).
  { destruct u as [y e|e]; simpl in He.
    - destruct (eval rt _ _ e); simpl in He; [|done]. injection He as <- <-.
      apply lookup_insert_ne. intros ->. by apply (Hk m e), list_elem_of_here.
    - destruct (eval rt _ _ e); simpl in He; [|done]. by injection He as <- <-. }
  simpl. rewrite Hg. simpl.
  rewrite !lookup_insert_ne; [done | | |]; intros <-; apply Hx; loop_var.
Qed.

Lemma follows_run_nodes (m : mode) (nodes : list value) (st : state) :
  follows st (run_nodes rt m nodes st).1.
Proof.
  revert st. induction nodes as [|node nodes IH]; intros st; simpl.
  - apply follows_refl.
  - pose proof (follows_run_node m node st) as H1.
    destruct (run_node rt m node st) as [st1 [e|]]; [exact H1|].
    eapply follows_trans; [exact H1 | apply IH].
Qed.

Lemma follows_for_node_in (name : string) (m : mode) (st : state) :
  follows st (for_node_in rt name m st).1.
Proof.
  unfold for_node_in. destruct (lookup_name _ _ name) as [v|e]; [|apply follows_refl].
  destruct (items_of rt v) as [nodes|e]; [|apply follows_refl].
  apply follows_run_nodes.
Qed.

Lemma follows_inner_try (st : state) : follows st (inner_try rt st).1.
Proof.
  unfold inner_try.
  pose proof (follows_for_node_in "to_run_exec" ExecMode st) as H1.
  destruct (for_node_in rt "to_run_exec" ExecMode st) as [st1 [e|]]; [exact H1|].
  pose proof (follows_for_node_in "to_run_single" SingleMode st1) as H2.
  destruct (for_node_in rt "to_run_single" SingleMode st1) as [st2 [e|]];
    eapply follows_trans; eauto.
Qed.

Lemma follows_bind_units (body : list stmt) (st : state) :
  follows st (bind_units body st).
Proof.
  unfold bind_units.
  eapply follows_trans; [eapply follows_trans|]; apply follows_store; loop_var.
Qed.

Lemma follows_run_code (rejected : option string) (req : request)
    (final_code : list string) (st : state) :
  follows st (run_code rt rejected req final_code st).1.
Proof.
  unfold run_code. destruct final_code as [|l ls]; [apply follows_emit|].
  destruct rejected; [apply follows_emit|].
  destruct (compile_ast rt _) as [body|e]; [|apply follows_emit].
  pose proof (follows_inner_try
    (bind_units body (emit [SetJobGroup (jobGroup req) "Zeppelin"] st))) as H.
  destruct (inner_try rt _) as [st1 [e|]]; simpl in *.
  - eapply follows_trans; [apply follows_emit|].
    eapply follows_trans; [apply follows_bind_units | exact H].
  - eapply follows_trans; [apply follows_emit|].
    eapply follows_trans; [apply follows_bind_units|]. 
    eapply follows_trans; [exact H | apply follows_emit].
Qed.

Lemma follows_iteration (rejected : option string) (req : request) (st : state) :
  follows st (iteration rt rejected req st).
Proof.
  unfold iteration, try_body.
  set (st1 := store "req" (VReq req) st).
  assert (H1 : follows st st1) by (apply follows_store; loop_var).
  pose proof (follows_read_request req st1) as H2.
  destruct (read_request req st1) as [st2 fc]. simpl in H2.
  pose proof (follows_run_code rejected req fc st2) as H3.
  destruct (run_code rt rejected req fc st2) as [st3 [e|]]; simpl in H3.
  - assert (H4 : follows st st3) by eauto using follows_trans.
    destruct (is_Py4JJavaError e).
    + unfold on_Py4JJavaError. destruct (find _ _).
      * eapply follows_trans; [exact H4|]. eapply follows_trans; [|apply follows_emit].
        eapply follows_trans; [eapply follows_trans|]; apply follows_store; loop_var.
      * eapply follows_trans; [exact H4|]. eapply follows_trans; [|apply follows_emit].
        eapply follows_trans; apply follows_store; loop_var.
    + eapply follows_trans; [exact H4 | apply follows_emit].
  - eauto using follows_trans.
Qed.

Lemma filter_loop_globals (stmts final_code : list string) (st : state) (x : string) :
  x <> "s" -> x <> "s_stripped" -> x <> "final_code" ->
  globals (filter_loop stmts final_code st).1 !! x = globals st !! x.
Proof.
  intros H1 H2 H3. revert final_code st.
  induction stmts as [|s stmts IH]; intros final_code st; simpl; [done|].
  destruct (skipped s); rewrite IH; simpl; by rewrite !lookup_insert_ne.
Qed.

Lemma ran_filter_loop (stmts final_code : list string) (st : state) :
  ran (filter_loop stmts final_code st).1 = ran st.
Proof.
  revert final_code st. induction stmts as [|s stmts IH]; intros final_code st; simpl;
    [done|]. destruct (skipped s); by rewrite IH.
Qed.

Lemma read_request_globals (req : request) (st : state) (x : string) :
  x ∉ read_vars ->
  globals (read_request req (store "req" (VReq req) st)).1 !! x = globals st !! x.
Proof.
  unfold read_vars. rewrite !not_elem_of_cons. intros (?&?&?&?&?&?&_).
  unfold read_request. rewrite filter_loop_globals by done.
  simpl. by rewrite !lookup_insert_ne.
Qed.

Lemma filter_all_skipped (stmts : list string) :
  Forall (fun s => skipped s = true) stmts ->
  filter (fun s => skipped s = false) stmts = [].
Proof.
  induction 1 as [|s stmts Hs _ IH]; [done|].
  rewrite filter_cons_False by congruence. exact IH.
Qed.


(** *** Reaching the two loops *)

Lemma lookup_name_bound (g : gmap string value) (x : string) (v : value) :
  g !! x = Some v -> lookup_name g g x = Ok v.
Proof. unfold lookup_name. by intros ->. Qed.

Lemma slices_snoc (head : list stmt) (tail : stmt) :
  take (length (head ++ [tail]) - 1) (head ++ [tail]) = head
  /\ drop (length (head ++ [tail]) - 1) (head ++ [tail]) = [tail].
Proof.
  rewrite length_app. simpl.
  replace (length head + 1 - 1)%nat with (length head) by lia.
  by rewrite take_app_length, drop_app_length.
Qed.

Lemma prepare_units (req : request) (head : list stmt) (tail : stmt) (st : state) :
  globals (prepare req (head ++ [tail]) st) !! "to_run_exec" = Some (VNodes head)
  /\ globals (prepare req (head ++ [tail]) st) !! "to_run_single" = Some (VNodes [tail]).
Proof.
  unfold prepare, bind_units.
  destruct (slices_snoc head tail) as [-> ->]. simpl.
  split; [by rewrite lookup_insert_ne, lookup_insert_eq | by rewrite lookup_insert_eq].
Qed.

Lemma prepare_host (req : request) (body : list stmt) (st : state) :
  host (prepare req body st) = (host st ++ [SetJobGroup (jobGroup req) "Zeppelin"])%list
  /\ ran (prepare req body st) = ran st.
Proof.
  unfold prepare, bind_units. simpl.
  rewrite host_read_request. unfold read_request. by rewrite ran_filter_loop.
Qed.

Lemma try_body_prepare (req : request) (body : list stmt) (st : state) :
  filter (fun s => skipped s = false) (split_nl (statements req)) <> [] ->
  compile_ast rt (join_nl (filter (fun s => skipped s = false)
                             (split_nl (statements req)))) = Ok body ->
  try_body rt None req (store "req" (VReq req) st)
  = match inner_try rt (prepare req body st) with
    | (st', Some e) => (st', Some e)
    | (st', None) => (emit [SetStatementsFinished "" false] st', None)
    end.
Proof.
  intros Hne Hc. rewrite try_body_kept.
  unfold run_code, prepare.
  destruct (filter _ _) as [|l ls]; [done|]. by rewrite Hc.
Qed.

(** In mode [exec] nothing is written to the output. *)
Lemma run_node_exec_host (u : stmt) (st : state) :
  host (run_node rt ExecMode (VNode u) st).1 = host st.
Proof.
  unfold run_node.
  destruct (exec_node rt ExecMode _ _ u) as [[g out]|e] eqn:He; [|done].
  destruct u as [x e|e]; simpl in He;
    destruct (eval rt _ _ e); simpl in He; [|done| |done];
    injection He as <- <-; simpl; by rewrite app_nil_r.
Qed.

Lemma run_node_ran (m : mode) (u : stmt) (st : state) :
  ran (run_node rt m (VNode u) st).1 = (ran st ++ [(m, u)])%list.
Proof.
  unfold run_node. by destruct (exec_node rt m _ _ u) as [[g out]|e].
Qed.

(** The nodes given to the first loop are run in their order, as long as
    none raises. *)
Lemma run_nodes_exec_ok (units : list stmt) (st st' : state) :
  run_nodes rt ExecMode (VNode <$> units) st = (st', None) ->
  host st' = host st /\ ran st' = (ran st ++ (pair ExecMode <$> units))%list.
Proof.
  revert st. induction units as [|u units IH]; intros st; simpl.
  - intros [= <-]. by rewrite app_nil_r.
  - pose proof (run_node_exec_host u st) as Hh.
    pose proof (run_node_ran ExecMode u st) as Hr.
    destruct (run_node rt ExecMode (VNode u) st) as [st1 [e|]]; [done|].
    intros H. apply IH in H as [-> ->]. simpl in *.
    by rewrite Hh, Hr, <- app_assoc.
Qed.

Lemma run_nodes_app (m : mode) (l1 l2 : list value) (st : state) :
  run_nodes rt m (l1 ++ l2) st
  = match run_nodes rt m l1 st with
    | (st', None) => run_nodes rt m l2 st'
    | failed => failed
    end.
Proof.
  revert st. induction l1 as [|v l1 IH]; intros st; simpl; [done|].
  destruct (run_node rt m v st) as [st1 [e|]]; [done | apply IH].
Qed.

Lemma for_node_in_units (name : string) (m : mode) (units : list stmt) (st : state) :
  globals st !! name = Some (VNodes units) ->
  for_node_in rt name m st = run_nodes rt m (VNode <$> units) st.
Proof.
  intros H. unfold for_node_in. by rewrite (lookup_name_bound _ _ _ H).
Qed.

(** The turn, once the first loop has ended with [to_run_single] as line
    288 bound it. *)
Lemma iteration_tail (req : request) (st : state) (head : list stmt) (tail : stmt)
    (st_h : state) :
  filter (fun s => skipped s = false) (split_nl (statements req)) <> [] ->
  compile_ast rt (join_nl (filter (fun s => skipped s = false)
                             (split_nl (statements req)))) = Ok (head ++ [tail])%list ->
  run_nodes rt ExecMode (VNode <$> head) (prepare req (head ++ [tail]) st)
  = (st_h, None) ->
  globals st_h !! "to_run_single" = Some (VNodes [tail]) ->
  iteration rt None req st
  = let st_t := load_code SingleMode tail (wrap_node SingleMode (VNode tail) st_h) in
    match exec_node rt SingleMode (globals st_t) (globals st_t) tail with
    | Ok (g, out) =>
        emit [SetStatementsFinished "" false]
          (emit (Logger_write <$> out) (State g (host st_t) (ran st_t)))
    | Raise e => on_other rt (Exception (format_exc rt e)) st_t
    end.
Proof.
  intros Hne Hc Hh Hs. unfold iteration.
  rewrite (try_body_prepare req (head ++ [tail]) st Hne Hc).
  unfold inner_try.
  rewrite (for_node_in_units _ _ head) by apply prepare_units.
  rewrite Hh. rewrite (for_node_in_units _ _ [tail]) by done.
  simpl. unfold run_node.
  by destruct (exec_node rt SingleMode _ _ tail) as [[g out]|e].
Qed.


Lemma prepare_to_run_exec (req : request) (body : list stmt) (st : state) :
  globals (prepare req body st) !! "to_run_exec"
  = Some (VNodes (take (length body - 1) body)).
Proof.
  unfold prepare, bind_units. simpl. by rewrite lookup_insert_ne, lookup_insert_eq.
Qed.

Lemma take_all_but_last (pre post : list stmt) (u : stmt) :
  post <> [] ->
  take (length (pre ++ u :: post) - 1) (pre ++ u :: post)
  = (pre ++ u :: take (length post - 1) post)%list.
Proof.
  intros Hpost. rewrite length_app. simpl.
  destruct post as [|t post]; [done|]. simpl.
  replace (length pre + S (S (length post)) - 1)%nat
    with (length pre + S (length post))%nat by lia.
  rewrite take_app_add. simpl. by rewrite Nat.sub_0_r.
Qed.


(** *** What the host is told when a node raises *)

Lemma startswith_app (p r : string) : startswith (p +:+ r) p = true.
Proof.
  induction p as [|c p IH]; [done|].
  change (String c p +:+ r) with (String c (p +:+ r)). simpl.
  by rewrite Ascii.eqb_refl, IH.
Qed.

Lemma format_exc_head (e : exn) :
  startswith (format_exc rt e) traceback_head = true
  /\ startswith (format_exc rt e) marker = false.
Proof. split; [apply startswith_app | reflexivity]. Qed.

Lemma inner_try_wraps (st st' : state) (e : exn) :
  inner_try rt st = (st', Some e) -> exists e0, e = Exception (format_exc rt e0).
Proof.
  unfold inner_try.
  destruct (for_node_in rt "to_run_exec" ExecMode st) as [st1 [e1|]].
  - intros [= _ <-]. by exists e1.
  - destruct (for_node_in rt "to_run_single" SingleMode st1) as [st2 [e2|]];
      [|done]. intros [= _ <-]. by exists e2.
Qed.

(** C3, what the code does: once the lines kept have been parsed, whatever
    a node raises (a [Py4JJavaError] as well) leaves line 301 as an
    [Exception] that carries the traceback, so line 311 and never line 309
    reports it: the text the host is told with the error flag is the whole
    traceback of that [Exception]; it begins with the first line of a
    traceback and not at the marker searched for by line 306. *)
Theorem unit_fault_report (req : request) (st : state) (body : list stmt)
    (text : string) :
  let kept := filter (fun s => skipped s = false) (split_nl (statements req)) in
  kept <> [] ->
  compile_ast rt (join_nl kept) = Ok body ->
  last (host (iteration rt None req st)) = Some (SetStatementsFinished text true) ->
  (exists e, text = format_exc rt (Exception (format_exc rt e)))
  /\ startswith text traceback_head = true
  /\ startswith text marker = false.
Proof.
  intros kept Hne Hc. unfold iteration.
  rewrite (try_body_prepare req body st Hne Hc).
  destruct (inner_try rt (prepare req body st)) as [st1 [e|]] eqn:Hin.
  - destruct (inner_try_wraps _ _ _ Hin) as [e0 ->]. simpl.
    rewrite last_snoc. intros [= <-].
    split; [by exists e0 | exact (format_exc_head (Exception (format_exc rt e0)))].
  - simpl. by rewrite last_snoc.
Qed.

(** *** Names that outlive a batch *)

Lemma loop_vars_ne (x : string) :
  x ∉ loop_vars ->
  (x ∉ read_vars) /\ x <> "to_run_exec" /\ x <> "to_run_single"
  /\ x <> "node" /\ x <> "mod" /\ x <> "code".
Proof.
  unfold loop_vars, read_vars, unit_vars. simpl. rewrite !not_elem_of_cons.
  intros (?&?&?&?&?&?&?&?&?&?&?&?&?&?). repeat split; assumption.
Qed.

Lemma prepare_globals (req : request) (body : list stmt) (st : state) (x : string) :
  x ∉ loop_vars -> globals (prepare req body st) !! x = globals st !! x.
Proof.
  intros (Hr&?&?&?&?&?)%loop_vars_ne. unfold prepare, bind_units. simpl.
  rewrite !lookup_insert_ne by done. by apply read_request_globals.
Qed.


End Executor.

(** ** The completion engine *)

Section CompletionFacts.

Import PySparkCompletion.

Context (rt : Runtime).

Lemma candidates_None (g : gmap string value) : candidates rt None g = Ok (dom g).
Proof.
  unfold candidates, getGlobalCompletion. f_equal.
  rewrite (left_id_L ∅ (∪)). symmetry. apply leibniz_equiv, dom_alt.
Qed.

Lemma offered_spec (cl : gset string) :
  NoDup (offered cl)
  /\ forall x, x ∈ offered cl <-> x ∈ cl /\ re_match_dunder x = false.
Proof.
  unfold offered. split.
  - apply NoDup_filter, NoDup_elements.
  - intros x. rewrite list_elem_of_filter, elem_of_elements.
    destruct (re_match_dunder x); simpl; intuition congruence.
Qed.

Lemma re_match_dunder_spec (x : string) :
  re_match_dunder x = true <-> exists r, x = "__" +:+ r.
Proof.
  unfold re_match_dunder. split.
  - destruct x as [|a [|b r]]; cbn -[Ascii.eqb]; try done.
    + by rewrite andb_false_r.
    + destruct (Ascii.eqb_spec "_" a) as [<-|]; [|done].
      destruct (Ascii.eqb_spec "_" b) as [<-|]; [|done]. intros _. by exists r.
  - intros [r ->]. reflexivity.
Qed.

Lemma getCompletion_cases (text_value : option string) (g : gmap string value)
    (ev : host_event) :
  getCompletion rt text_value g = Ok ev ->
  exists cl, candidates rt text_value g = Ok cl
    /\ (cl = ∅ /\ ev = SetStatementsFinished "" false
        \/ cl <> ∅ /\ ev = SetStatementsFinished (json_dumps rt (offered cl)) false).
Proof.
  unfold getCompletion. destruct (candidates rt text_value g) as [cl|e]; [|done].
  simpl. intros Hev. exists cl. split; [done|].
  destruct (size cl <=? 0)%nat eqn:Hs; injection Hev as <-.
  - left. split; [|done]. apply Nat.leb_le in Hs.
    apply leibniz_equiv, size_empty_inv. lia.
  - right. split; [|done]. intros ->. by rewrite size_empty in Hs.
Qed.



Lemma drop_last_dot (s : string) : drop_last (s +:+ ".") = s.
Proof.
  induction s as [|c s IH]; [done|].
  change (String c s +:+ ".") with (String c (s +:+ ".")).
  cbn [drop_last]. rewrite IH. by destruct s.
Qed.

Lemma ends_with_dot_dot (s : string) : ends_with_dot (s +:+ ".") = true.
Proof.
  induction s as [|c s IH]; [done|].
  change (String c s +:+ ".") with (String c (s +:+ ".")).
  cbn [ends_with_dot]. rewrite IH. by destruct s.
Qed.

Lemma resolve_None (text_value : string) (g : gmap string value) :
  resolve rt text_value g = None <->
  text_value = EmptyString
  \/ (exists e, compile_ast rt (completion_source (completion_target text_value))
                = Raise e)
  \/ (exists body e,
        compile_ast rt (completion_source (completion_target text_value)) = Ok body
        /\ exec_module rt g (method_locals text_value) body = Raise e).
Proof.
  unfold resolve. destruct text_value as [|c t]; [by split; [left|]|].
  cbn [String.length Nat.leb].
  destruct (compile_ast rt _) as [body|e] eqn:Hc.
  - destruct (exec_module rt g _ body) as [l|e] eqn:He.
    + split; [done|]. intros [?|[[? ?]|(b&e&[= <-]&He')]]; [done|done|congruence].
    + split; [|done]. intros _. right. right. by exists body, e.
  - split; [|done]. intros _. right. left. by exists e.
Qed.


End CompletionFacts.

(** ** Runs on the small runtime *)

Section Runs.

Import Demo PySparkCompletion.







(** C3, witness: the one node of the batch calls the host, which raises. *)
Lemma unit_fault_report_witness :
  let req := Request "sc.emptyRDD().first()" "job-1" in
  let fault := Py4JJavaError "An error occurred while calling o42.first." in
  let text := format_exc rt (Exception (format_exc rt fault)) in
  host (iteration rt None req st0)
  = [SetJobGroup "job-1" "Zeppelin"; SetStatementsFinished text true]
  /\ (exists e, text = format_exc rt (Exception (format_exc rt e)))
  /\ startswith text traceback_head = true
  /\ startswith text marker = false.
Proof.
  intros req fault text. split; [vm_compute; reflexivity|].
  apply (unit_fault_report rt req st0
           [Expr (EJavaCall (Some "An error occurred while calling o42.first."))] text).
  - vm_compute. discriminate.
  - vm_compute. reflexivity.
  - vm_compute. reflexivity.
Defined.

(** The handler of line 304 at work: the host rejects [sc.setJobGroup]. *)
Example host_fault_outside_units :
  host (iteration rt (Some "rejected") (Request "x = 5" "job-1") st0)
  = [SetJobGroup "job-1" "Zeppelin";
     SetStatementsFinished
       ("Py4JJavaError: rejected" +:+ nl_s +:+ "(<class 'Py4JJavaError'>, ...)") true].
Proof. vm_compute. reflexivity. Qed.




(** A prefix that resolves: the attributes are added, those that begin with
    two underscores are not offered. *)
Example attribute_completion :
  let g : gmap string value := <["obj" := VObj "obj"]> ∅ in
  getCompletion rt (Some "obj.") g
  = Ok (SetStatementsFinished (json_dumps rt ["obj"; "method1"]) false).
Proof. vm_compute. reflexivity. Qed.




End Runs.

(** * More of the file *)

(** ** Searching the marker in a traceback *)

Section Marker.

Lemma str_assoc (a b c : string) : (a +:+ b) +:+ c = a +:+ (b +:+ c).
Proof.
  induction a as [|x a IH]; [done|].
  change ((String x a +:+ b) +:+ c) with (String x ((a +:+ b) +:+ c)).
  change (String x a +:+ b +:+ c) with (String x (a +:+ b +:+ c)).
  by rewrite IH.
Qed.

Lemma startswith_nil (s : string) : startswith s EmptyString = true.
Proof. by destruct s. Qed.

Lemma startswith_append (a b p : string) :
  startswith a p = true -> startswith (a +:+ b) p = true.
Proof.
  revert a. induction p as [|c p IH]; intros a; [by rewrite startswith_nil|].
  destruct a as [|d a]; [done|].
  change (String d a +:+ b) with (String d (a +:+ b)).
  cbn -[Ascii.eqb]. intros [-> Hp]%andb_prop. by rewrite (IH a Hp).
Qed.

Lemma substring_length_le (s : string) (m n : nat) :
  (String.length (substring m n s) <= String.length s - m)%nat.
Proof.
  revert m n. induction s as [|c s IH]; intros [|m] [|n]; simpl; try lia.
  - specialize (IH 0%nat n). lia.
  - apply IH.
  - apply IH.
Qed.

Lemma substring_startswith (s p : string) (m k : nat) :
  substring m (String.length p) s = p -> (String.length p <= k)%nat ->
  startswith (substring m k s) p = true.
Proof.
  revert p m k. induction s as [|c s IH]; intros p m k Hs Hk.
  - assert (p = EmptyString) as ->; [|apply startswith_nil].
    destruct m, p; simpl in Hs; congruence.
  - destruct m as [|m].
    + destruct p as [|a p]; [apply startswith_nil|].
      destruct k as [|k]; [simpl in Hk; lia|].
      simpl in Hs. injection Hs as -> Hs. cbn -[Ascii.eqb].
      rewrite Ascii.eqb_refl. simpl. apply (IH p 0%nat k Hs). simpl in Hk. lia.
    + simpl in *. destruct p as [|a p]; [apply startswith_nil|]. by apply IH.
Qed.

Lemma substring_front (p b : string) :
  substring 0 (String.length p) (p +:+ b) = p.
Proof.
  induction p as [|y p IHp]; [by destruct b|].
  change (String y p +:+ b) with (String y (p +:+ b)). simpl. by rewrite IHp.
Qed.

Lemma substring_at (a p b : string) :
  substring (String.length a) (String.length p) (a +:+ p +:+ b) = p.
Proof.
  induction a as [|x a IH]; [exact (substring_front p b)|].
  change (String x a +:+ p +:+ b) with (String x (a +:+ p +:+ b)). exact IH.
Qed.

(** [s[s.find(sub):]] begins with [sub]. *)
Lemma slice_from_find (s sub : string) (i : nat) :
  find s sub = Some i -> startswith (slice_from i s) sub = true.
Proof.
  unfold find, slice_from. intros Hi%index_correct1.
  apply substring_startswith; [done|].
  rewrite <- Hi at 1. apply substring_length_le.
Qed.

(** The marker occurs in the traceback of every [Py4JJavaError]. *)
Lemma find_marker (rt : Runtime) (m : string) :
  exists i, find (format_exc rt (Py4JJavaError m)) marker = Some i.
Proof.
  unfold find.
  destruct (index 0 marker (format_exc rt (Py4JJavaError m))) as [i|] eqn:Hi;
    [by exists i|]. exfalso.
  apply (index_correct3 0
           (String.length (traceback_head +:+ nl_s +:+ stack rt (Py4JJavaError m))))
    in Hi; [|done|lia].
  apply Hi.
  set (a := traceback_head +:+ nl_s +:+ stack rt (Py4JJavaError m)).
  assert (format_exc rt (Py4JJavaError m) = a +:+ marker +:+ (" " +:+ m +:+ nl_s))
    as ->; [|apply substring_at].
  unfold a, format_exc. rewrite !str_assoc. reflexivity.
Qed.

End Marker.

(** ** What one turn, and a session, tell the host *)

Section Turn.

Context (rt : Runtime).

Local Arguments run_node : simpl never.

Lemma run_node_host (m : mode) (node : value) (st : state) :
  exists outs,
    host (run_node rt m node st).1 = (host st ++ (AppendOutput <$> outs))%list.
Proof.
  unfold run_node. destruct node as [| | | |u| | | | | |];
    try (exists []; simpl; by rewrite app_nil_r).
  destruct (exec_node rt m _ _ u) as [[g out]|e].
  - by exists out.
  - exists []. simpl. by rewrite app_nil_r.
Qed.

Lemma run_nodes_host (m : mode) (nodes : list value) (st : state) :
  exists outs,
    host (run_nodes rt m nodes st).1 = (host st ++ (AppendOutput <$> outs))%list.
Proof.
  revert st. induction nodes as [|node nodes IH]; intros st; simpl.
  - exists []. simpl. by rewrite app_nil_r.
  - destruct (run_node_host m node st) as [o1 H1].
    destruct (run_node rt m node st) as [st1 [e|]]; [by exists o1|].
    destruct (IH st1) as [o2 H2]. exists (o1 ++ o2)%list.
    simpl in H1. by rewrite H2, H1, fmap_app, app_assoc.
Qed.

Lemma for_node_in_host (name : string) (m : mode) (st : state) :
  exists outs,
    host (for_node_in rt name m st).1 = (host st ++ (AppendOutput <$> outs))%list.
Proof.
  unfold for_node_in.
  destruct (lookup_name _ _ name) as [v|e];
    [|exists []; simpl; by rewrite app_nil_r].
  destruct (items_of rt v) as [nodes|e];
    [apply run_nodes_host | exists []; simpl; by rewrite app_nil_r].
Qed.

Lemma inner_try_host (st : state) :
  exists outs,
    host (inner_try rt st).1 = (host st ++ (AppendOutput <$> outs))%list.
Proof.
  unfold inner_try.
  destruct (for_node_in_host "to_run_exec" ExecMode st) as [o1 H1].
  destruct (for_node_in rt "to_run_exec" ExecMode st) as [st1 [e|]];
    [by exists o1|].
  destruct (for_node_in_host "to_run_single" SingleMode st1) as [o2 H2].
  simpl in H1.
  destruct (for_node_in rt "to_run_single" SingleMode st1) as [st2 [e|]];
    exists (o1 ++ o2)%list; simpl in *; by rewrite H2, H1, fmap_app, app_assoc.
Qed.

Lemma on_Py4JJavaError_host (e : exn) (st : state) :
  exists text,
    host (on_Py4JJavaError rt e st)
    = (host st ++ [SetStatementsFinished text true])%list
    /\ (startswith text traceback_head = true \/ startswith text marker = true).
Proof.
  unfold on_Py4JJavaError.
  destruct (find (format_exc rt e) marker) as [i|] eqn:Hi; eexists; (split; [done|]).
  - right. by apply startswith_append, slice_from_find.
  - left. apply startswith_append, startswith_app.
Qed.

(** The events of one turn. *)
Lemma iteration_host (rejected : option string) (req : request) (st : state) :
  exists outs text flag,
    host (iteration rt rejected req st)
    = (host st
       ++ match kept_lines (statements req) with
          | [] => []
          | _ :: _ => [SetJobGroup (jobGroup req) "Zeppelin"]
          end
       ++ (AppendOutput <$> outs)
       ++ [SetStatementsFinished text flag])%list
    /\ (flag = false -> text = EmptyString)
    /\ (flag = true ->
        startswith text traceback_head = true \/ startswith text marker = true)
    /\ (kept_lines (statements req) = [] -> outs = [] /\ flag = false).
Proof.
  unfold iteration. rewrite try_body_kept. fold (kept_lines (statements req)).
  set (st1 := (read_request req (store "req" (VReq req) st)).1).
  assert (H1 : host st1 = host st) by (unfold st1; by rewrite host_read_request).
  unfold run_code. destruct (kept_lines (statements req)) as [|l ls].
  { exists [], EmptyString, false. simpl. by rewrite H1. }
  assert (Hfail : forall e st2,
    host st2 = (host st ++ [SetJobGroup (jobGroup req) "Zeppelin"])%list ->
    exists text,
      host (if is_Py4JJavaError e then on_Py4JJavaError rt e st2 else on_other rt e st2)
      = (host st ++ [SetJobGroup (jobGroup req) "Zeppelin"] ++ []
           ++ [SetStatementsFinished text true])%list
      /\ (startswith text traceback_head = true \/ startswith text marker = true)).
  { intros e st2 H2. destruct (is_Py4JJavaError e).
    - destruct (on_Py4JJavaError_host e st2) as (text & Hh & Ht).
      exists text. split; [|done]. by rewrite Hh, H2, <- app_assoc.
    - exists (format_exc rt e). split.
      + simpl. by rewrite H2, <- app_assoc.
      + left. apply startswith_app. }
  destruct rejected as [m|].
  { destruct (Hfail (Py4JJavaError m)
                (emit [SetJobGroup (jobGroup req) "Zeppelin"] st1)) as (text & Hh & Ht).
    { simpl. by rewrite H1. }
    exists [], text, true. simpl in *. by rewrite Hh. }
  destruct (compile_ast rt _) as [body|e].
  - destruct (inner_try_host
                (bind_units body (emit [SetJobGroup (jobGroup req) "Zeppelin"] st1)))
      as [outs Ho].
    destruct (inner_try rt _) as [st2 [e|]] eqn:Hin; simpl in Ho.
    + destruct (inner_try_wraps _ _ _ _ Hin) as [e0 ->].
      exists outs, (format_exc rt (Exception (format_exc rt e0))), true.
      simpl. rewrite Ho, H1, <- !app_assoc.
      split; [done|]. split; [done|]. split; [|done].
      intros _. left. exact (proj1 (format_exc_head rt (Exception (format_exc rt e0)))).
    + exists outs, EmptyString, false. simpl. rewrite Ho, H1, <- !app_assoc. done.
  - destruct (Hfail e (emit [SetJobGroup (jobGroup req) "Zeppelin"] st1))
      as (text & Hh & Ht).
    { simpl. by rewrite H1. }
    exists [], text, true. simpl in *. by rewrite Hh.
Qed.


Lemma reports_of_outputs (outs : list string) :
  filter (fun ev => is_report ev = true) (AppendOutput <$> outs) = [].
Proof.
  induction outs as [|o outs IH]; [done|].
  simpl. by rewrite filter_cons_False.
Qed.

Lemma iteration_one_report (rejected : option string) (req : request) (st : state) :
  exists evs,
    host (iteration rt rejected req st) = (host st ++ evs)%list
    /\ length (filter (fun ev => is_report ev = true) evs) = 1%nat.
Proof.
  destruct (iteration_host rejected req st) as (outs & text & flag & Hh & _).
  eexists. split; [exact Hh|].
  rewrite !filter_app, reports_of_outputs.
  destruct (kept_lines (statements req)); simpl; done.
Qed.





Lemma follows_main_loop (reqs : list (option string * request)) (st : state) :
  follows st (main_loop rt reqs st).
Proof.
  revert st. induction reqs as [|[rejected req] reqs IH]; intros st; simpl.
  - apply follows_refl.
  - eapply follows_trans; [apply follows_iteration | apply IH].
Qed.


End Turn.

(** ** More on the statement filter *)

Section Lines.

Lemma lstrip_empty (s : string) : lstrip s = EmptyString <-> all_space s = true.
Proof.
  induction s as [|c s IH]; simpl; [done|].
  destruct (isspace c); simpl; [exact IH | done].
Qed.

Lemma rstrip_nonspace_first (t : string) :
  is_space_opt (first_char t) = false -> first_char (rstrip t) = first_char t.
Proof.
  destruct t as [|c t]; simpl; [done|]. intros Hc.
  destruct (rstrip t); [by rewrite Hc | done].
Qed.

Lemma strip_first (s : string) : first_char (strip s) = first_char (lstrip s).
Proof. apply rstrip_nonspace_first, lstrip_first. Qed.

Lemma first_char_None (s : string) : first_char s = None <-> s = EmptyString.
Proof. by destruct s. Qed.

(** X7: whether a line is dropped depends on its first character that is
    no white space only: the line is dropped exactly when it has none or
    when that character is [#].  So a comment is dropped however it is
    indented, and a line that begins with anything else is kept, a comment
    at its end included. *)
Theorem first_visible_char (s : string) :
  (skipped s = true <->
   all_space s = true \/ first_char (lstrip s) = Some "#"%char)
  /\ is_space_opt (first_char (lstrip s)) = false
  /\ (exists a, s = a +:+ lstrip s /\ all_space a = true)
  /\ (forall a b, all_space a = true -> skipped (a +:+ String "#" b) = true)
  /\ (forall a c b, all_space a = true -> isspace c = false -> c <> "#"%char ->
        skipped (a +:+ String c b) = false).
Proof.
  assert (Hiff : forall t, skipped t = true <->
                   all_space t = true \/ first_char (lstrip t) = Some "#"%char).
  { intros t. rewrite skipped_spec, <- lstrip_empty.
    rewrite <- (first_char_None (strip t)), <- (first_char_None (lstrip t)).
    rewrite <- strip_first. split.
    - intros [H|[r Hr]]; [by left | right; by rewrite Hr].
    - intros [H|H]; [by left|]. right.
      destruct (strip t) as [|c r]; [done|]. injection H as ->. by exists r. }
  assert (Hl : forall a r, all_space a = true ->
                 is_space_opt (first_char r) = false -> lstrip (a +:+ r) = r).
  { intros a r Ha Hr. induction a as [|x a IH].
    - destruct r as [|c r]; [done|]. simpl in *. by rewrite Hr.
    - simpl in Ha. apply andb_prop in Ha as [Hx Ha].
      change (String x a +:+ r) with (String x (a +:+ r)). simpl.
      rewrite Hx. by apply IH. }
  split; [apply Hiff|]. split; [apply lstrip_first|].
  split; [apply lstrip_split|]. split.
  - intros a b Ha. apply Hiff. right. by rewrite Hl.
  - intros a c b Ha Hc Hne. apply not_true_is_false. intros [H|H]%Hiff.
    + assert (Hs : all_space (a +:+ String c b) = false); [|congruence].
      clear H. induction a as [|x a IH]; simpl.
      * change (EmptyString +:+ String c b) with (String c b). simpl. by rewrite Hc.
      * simpl in Ha. apply andb_prop in Ha as [Hx Ha].
        change (String x a +:+ String c b) with (String x (a +:+ String c b)).
        simpl. by rewrite Hx, IH.
    + rewrite Hl in H by (simpl; done). simpl in H. congruence.
Qed.

Lemma filter_all (P : string -> Prop) `{forall x, Decision (P x)} (l : list string) :
  Forall P l -> filter P l = l.
Proof.
  induction 1 as [|x l Hx _ IH]; [done|].
  by rewrite filter_cons_True, IH.
Qed.

(** X8: cleaning is idempotent: the lines kept from a text, joined with
    line breaks and filtered once more, are the same lines.  Nothing is
    lost or split when the cleaned text is read again. *)
Theorem kept_lines_idempotent (text : string) :
  kept_lines (join_nl (kept_lines text)) = kept_lines text
  /\ Forall (fun s => skipped s = false /\ no_nl s = true) (kept_lines text)
  /\ sublist (kept_lines text) (split_nl text).
Proof.
  assert (Hall : Forall (fun s => skipped s = false /\ no_nl s = true) (kept_lines text)).
  { apply Forall_forall. intros l [Hl Hin]%list_elem_of_filter. split; [done|].
    clear Hl. revert l Hin. apply Forall_forall, split_nl_lines. }
  split; [|split; [exact Hall | apply sublist_filter]].
  destruct (kept_lines text) as [|l ls] eqn:Hk; [done|].
  unfold kept_lines at 1. rewrite split_join_nl.
  - apply filter_all. eapply Forall_impl; [exact Hall|]. by intros ? [? _].
  - done.
  - eapply Forall_impl; [exact Hall|]. by intros ? [_ ?].
Qed.

End Lines.

(** ** More on the completion engine *)

Section Attributes.

Import PySparkCompletion.

Context (rt : Runtime).

Lemma size_le_0 (cl : gset string) : (size cl <=? 0)%nat = bool_decide (cl = ∅).
Proof.
  destruct (decide (cl = ∅)) as [->|Hne].
  - by rewrite size_empty, bool_decide_eq_true_2.
  - rewrite bool_decide_eq_false_2 by done. apply Nat.leb_gt.
    assert (size cl <> 0%nat); [|lia].
    intros H. apply Hne, leibniz_equiv, size_empty_inv, H.
Qed.

Lemma resolve_dir (text_value : string) (g : gmap string value) (e : expr) (v : value) :
  text_value <> EmptyString ->
  compile_ast rt (completion_source (completion_target text_value))
  = Ok [Assign "objectDefList" (EDir e)] ->
  eval rt g (method_locals text_value) e = Ok v ->
  getMethodCompletion rt (Some text_value) g = Ok (Some (attrs rt v)).
Proof.
  intros Hne Hc He. unfold getMethodCompletion, resolve.
  destruct text_value as [|c t]; [done|]. cbn [String.length Nat.leb].
  rewrite Hc. simpl. rewrite He. simpl. by rewrite lookup_insert_eq.
Qed.



End Attributes.

(** ** SparkVersion *)

Section Versions.

Import SparkVersion.

(** X11: the three tests are nested: a Spark 2 session has the
    auto-converting gateway, and a session with that gateway imports the
    whole of [org.apache.spark.sql]; [spark] is bound exactly when
    [SparkSession] is the class that was imported; [scala.Tuple2], which
    the input forms need, is imported whatever the version. *)
Theorem version_tests_nested (sparkVersion : SparkVersion.t) :
  (isSpark2 sparkVersion = true -> isAutoConvertEnabled sparkVersion = true)
  /\ (isAutoConvertEnabled sparkVersion = true ->
      isImportAllPackageUnderSparkSql sparkVersion = true)
  /\ ("spark" ∈ session_names sparkVersion <->
      session_import sparkVersion = "SparkSession")
  /\ (gateway_auto_convert sparkVersion = true ->
      "org.apache.spark.sql.*" ∈ java_imports sparkVersion)
  /\ last (java_imports sparkVersion) = Some "scala.Tuple2"
  /\ (forall x, x ∈ ["sc"; "sqlContext"; "sqlc"; "z"; "completion"] ->
        x ∈ session_names sparkVersion).
Proof.
  unfold gateway_auto_convert, session_import, session_names, java_imports.
  unfold isSpark2, isAutoConvertEnabled, isImportAllPackageUnderSparkSql,
    SPARK_2_0_0, SPARK_1_4_0, SPARK_1_3_0.
  destruct sparkVersion as [v]. simpl.
  split; [intros H%Z.leb_le; apply Z.leb_le; lia|].
  split; [intros H%Z.leb_le; apply Z.leb_le; lia|].
  split; [|split; [|split]].
  - destruct (20000 <=? v); simpl; split; try done.
    + intros _. repeat first [apply list_elem_of_here | apply list_elem_of_further].
    + rewrite !elem_of_cons. intros H. exfalso.
      repeat (destruct H as [H|H]; [discriminate H|]). by apply not_elem_of_nil in H.
  - intros H%Z.leb_le. assert (Hv : (10300 <=? v) = true) by (apply Z.leb_le; lia).
    rewrite Hv. simpl.
    repeat first [apply list_elem_of_here | apply list_elem_of_further].
  - by destruct (10300 <=? v).
  - intros x Hx. rewrite !elem_of_cons in Hx.
    destruct Hx as [->|[->|[->|[->|[->|H]]]]]; [..|by apply not_elem_of_nil in H];
      destruct (20000 <=? v); simpl;
      repeat first [apply list_elem_of_here | apply list_elem_of_further].
Qed.

End Versions.

(** ** The input forms *)

Section FormFacts.

Import Forms.

Lemma to_tuples_spec (options : list (list value)) :
  match to_tuples options with
  | inr tuples =>
      untuple <$> tuples = options
      /\ Forall (fun items => length items = 2%nat) options
  | inl _ => ~ Forall (fun items => length items = 2%nat) options
  end.
Proof.
  induction options as [|items options IH]; csimpl; [done|].
  destruct items as [|a [|b [|c items]]]; csimpl;
    try (intros H; by inversion H).
  destruct (to_tuples options) as [e|tuples].
  - intros H. apply IH. by inversion H.
  - destruct IH as [<- IH]. split; [done|]. by constructor.
Qed.

Lemma first_items_pairs (tuples : list (value * value)) :
  first_items (untuple <$> tuples) = inr (tuples.*1).
Proof.
  induction tuples as [|[a b] tuples IH]; csimpl; [done|]. by rewrite IH.
Qed.

(** X12: [select] and [checkbox] reach the host exactly when every option
    has two items; the host is then given the options as pairs, in their
    order, and, for a [checkbox] without default, the first item of every
    option as the checked ones; otherwise an [IndexError] is raised and the
    host is not called. *)
Theorem forms_validate (name : string) (options : list (list value))
    (defaultValue : value) (defaultChecked : option (list value)) :
  ((exists c, select name options defaultValue = inr c)
   <-> Forall (fun items => length items = 2%nat) options)
  /\ ((exists c, checkbox name options defaultChecked = inr c)
      <-> Forall (fun items => length items = 2%nat) options)
  /\ (forall c, select name options defaultValue = inr c ->
        exists tuples, c = Zselect name defaultValue tuples
                       /\ untuple <$> tuples = options)
  /\ (forall c, checkbox name options defaultChecked = inr c ->
        exists tuples,
          c = Zcheckbox name (default (tuples.*1) defaultChecked) tuples
          /\ untuple <$> tuples = options).
Proof.
  pose proof (to_tuples_spec options) as Ht.
  unfold select, checkbox.
  destruct (to_tuples options) as [e|tuples].
  - split; [|split; [|split]].
    + split; [by intros [c ?] | done].
    + split; [|done]. intros [c Hc].
      destruct defaultChecked; [done|]. by destruct (first_items options).
    + done.
    + intros c Hc. destruct defaultChecked; [done|]. by destruct (first_items options).
  - destruct Ht as [Hu Hall]. split; [|split; [|split]].
    + split; [done | intros _; eauto].
    + split; [done|]. intros _. destruct defaultChecked as [d|]; [eauto|].
      rewrite <- Hu, first_items_pairs. eauto.
    + intros c [= <-]. eauto.
    + intros c. destruct defaultChecked as [d|]; simpl.
      * intros [= <-]. eauto.
      * rewrite <- Hu at 1. rewrite first_items_pairs. intros [= <-]. eauto.
Qed.

End FormFacts.

(** ** Programs that use the proxy *)

Section ProxyPrograms.

Import PyZeppelinContext ProxyUse.

Context (host_get : list zcall -> string -> value).
Context (host_containsKey : list zcall -> string -> bool).

(** X13: whatever sequence of uses a program makes of the proxy, the host
    sees one call for each use, in the order of the uses, and the
    dictionary the proxy derives from keeps the entries it had: nothing is
    ever cached in it, so [len(z)] and iteration over [z] never reflect what
    was put. *)
Theorem proxy_program (us : list use) (self : PyZeppelinContext.t) :
  z (run_uses host_get host_containsKey self us) = (z self ++ (call_of <$> us))%list
  /\ entries (run_uses host_get host_containsKey self us) = entries self
  /\ max_result (run_uses host_get host_containsKey self us) = max_result self
  /\ entries (run_uses host_get host_containsKey init us) = ∅.
Proof.
  assert (H : forall s,
    z (run_uses host_get host_containsKey s us) = (z s ++ (call_of <$> us))%list
    /\ entries (run_uses host_get host_containsKey s us) = entries s
    /\ max_result (run_uses host_get host_containsKey s us) = max_result s).
  { unfold run_uses. induction us as [|u us IH]; intros s; simpl.
    - by rewrite app_nil_r.
    - destruct (IH (run_use host_get host_containsKey s u)) as (-> & -> & ->).
      destruct u; simpl; by rewrite <- app_assoc. }
  destruct (H self) as (? & ? & ?). destruct (H init) as (_ & ? & _). done.
Qed.

End ProxyPrograms.

(** ** More runs on the small runtimes *)

Section MoreRuns.

Import PySparkCompletion.







End MoreRuns.
